(** * Smart-Mouse-Trap: node and gateway firmware, shallow embedding

    The node firmware is [trap-node.ino]; the gateway firmware is the
    [gateway.ino] sketch.  Both target 32-bit little-endian ESP32 parts:
    [uint8_t]/[uint32_t] fields are modelled as [Z] with explicit wrap-around,
    [unsigned long] (millis) is 32 bits, and a [float] is carried either as its
    IEEE-754 binary32 bit pattern (when it is only copied) or as its exact
    rational value (when it is compared). *)

From Stdlib Require Import ZArith List String Ascii Bool Lia QArith.
Import ListNotations.
Open Scope Z_scope.

(* ================================================================== *)
(** ** Fixed-width arithmetic *)

Definition two32 : Z := 4294967296.

(** [x++] on a [uint32_t]. *)
Definition u32_incr (x : Z) : Z := (x + 1) mod two32.

(** [a - b] on [unsigned long] (32 bits on the ESP32). *)
Definition u32_sub (a b : Z) : Z := (a - b) mod two32.

(* ================================================================== *)
(** ** TrapMessage and its wire image *)

(** [typedef struct { uint8_t node_id; uint8_t event_type; uint32_t trap_count;
    float battery_voltage; uint8_t route_hops; uint32_t timestamp; } TrapMessage;]
    The float is kept as its binary32 bit pattern: the firmware only copies it. *)
Record TrapMessage := mkTrapMessage {
  node_id : Z;
  event_type : Z;
  trap_count : Z;
  battery_voltage : Z;
  route_hops : Z;
  timestamp : Z
}.

(** Every field holds a value of its C type. *)
Definition msg_wf (m : TrapMessage) : Prop :=
  0 <= node_id m < 256 /\ 0 <= event_type m < 256 /\
  0 <= trap_count m < two32 /\ 0 <= battery_voltage m < two32 /\
  0 <= route_hops m < 256 /\ 0 <= timestamp m < two32.

(** [sizeof(TrapMessage)] with the ABI layout: node_id@0, event_type@1,
    padding 2..3, trap_count@4, battery_voltage@8, route_hops@12,
    padding 13..15, timestamp@16. *)
Definition sizeof_TrapMessage : Z := 20.

(** Little-endian image of a 32-bit value. *)
Definition le32 (x : Z) : list Z :=
  [x mod 256; (x / 256) mod 256; (x / 65536) mod 256; (x / 16777216) mod 256].

(** Reading a 32-bit little-endian value back. *)
Definition of_le32 (b0 b1 b2 b3 : Z) : Z :=
  b0 + 256 * b1 + 65536 * b2 + 16777216 * b3.

(** The bytes [(uint8_t * )&msg] handed to [esp_now_send(.., sizeof(msg))].
    The five padding bytes of the uninitialised local are arbitrary: [pad]. *)
Definition encode (pad : list Z) (m : TrapMessage) : list Z :=
  [node_id m; event_type m; nth 0 pad 0; nth 1 pad 0]
  ++ le32 (trap_count m)
  ++ le32 (battery_voltage m)
  ++ [route_hops m; nth 2 pad 0; nth 3 pad 0; nth 4 pad 0]
  ++ le32 (timestamp m).

(** The gateway's [if (len != sizeof(TrapMessage)) return; memcpy(&msg, data, sizeof(msg));]. *)
Definition decode (data : list Z) : option TrapMessage :=
  if negb (Z.of_nat (List.length data) =? sizeof_TrapMessage) then None
  else match data with
       | [n; e; _; _; c0; c1; c2; c3; v0; v1; v2; v3; h; _; _; _; s0; s1; s2; s3] =>
           Some (mkTrapMessage n e (of_le32 c0 c1 c2 c3) (of_le32 v0 v1 v2 v3)
                   h (of_le32 s0 s1 s2 s3))
       | _ => None
       end.

(* ================================================================== *)
(** ** Text formatting used by the gateway *)

Open Scope string_scope.
Open Scope Z_scope.

Definition digit_char (d : Z) : ascii := ascii_of_nat (48 + Z.to_nat d).

Fixpoint digits_aux (fuel : nat) (n : Z) (acc : string) : string :=
  match fuel with
  | O => acc
  | S f =>
      let acc' := String (digit_char (n mod 10)) acc in
      if n <? 10 then acc' else digits_aux f (n / 10) acc'
  end.

(** [printf("%d", n)]. *)
Definition decimal (n : Z) : string :=
  if n <? 0 then String "-" (digits_aux 20 (- n) EmptyString)
  else digits_aux 20 n EmptyString.

Definition hex_char (d : Z) : ascii :=
  if d <? 10 then ascii_of_nat (48 + Z.to_nat d) else ascii_of_nat (55 + Z.to_nat d).

(** [printf("%02X", b)] for a byte. *)
Definition hex2 (b : Z) : string :=
  String (hex_char (b / 16)) (String (hex_char (b mod 16)) EmptyString).

(** [snprintf(macStr, 18, "%02X:%02X:%02X:%02X:%02X:%02X", mac[0], ..., mac[5])]. *)
Definition mac_string (mac : list Z) : string :=
  hex2 (nth 0 mac 0) ++ ":" ++ hex2 (nth 1 mac 0) ++ ":" ++ hex2 (nth 2 mac 0) ++ ":" ++
  hex2 (nth 3 mac 0) ++ ":" ++ hex2 (nth 4 mac 0) ++ ":" ++ hex2 (nth 5 mac 0).

(* ================================================================== *)
(** ** Gateway bridge *)

(** Values of the ArduinoJson document. *)
Inductive JVal :=
| JUInt (n : Z)
| JFloat (bits : Z)
| JStr (s : string)
| JInt (n : Z).                           (** a signed integer member *)

Definition json_doc := list (string * JVal).

(** What the gateway does to the outside world, in order. *)
Inductive gw_action :=
| ConnectAttempt                          (** [mqttClient.connect(...)] *)
| Delay (ms : Z)                          (** [delay(ms)] *)
| Publish (topic : string) (payload : json_doc).  (** [mqttClient.publish(...)] *)

Definition mqtt_topic_prefix : string := "trap/".
Definition gateway_status_topic : string := "gateway/status".

(** Gateway globals plus the broker's future answers to [connect]
    ([conn_results], consumed in order; an exhausted list answers false). *)
Record GwState := mkGwState {
  connected : bool;
  conn_results : list bool;
  messagesReceived : Z;
  messagesForwarded : Z
}.

Definition next_connect (rs : list bool) : bool * list bool :=
  match rs with
  | [] => (false, [])
  | r :: rs' => (r, rs')
  end.

(** The body of [reconnectMQTT]: [while (!mqttClient.connected() && attempts < 5)].
    On success it publishes the literal [{"status":"online"}] and returns. *)
Fixpoint reconnect_loop (fuel : nat) (attempts : Z) (st : GwState)
  : GwState * list gw_action :=
  if negb (connected st) && (attempts <? 5) then
    match fuel with
    | O => (st, [])
    | S f =>
        let (ok, rs') := next_connect (conn_results st) in
        if ok then
          (mkGwState true rs' (messagesReceived st) (messagesForwarded st),
           [ConnectAttempt; Publish gateway_status_topic [("status", JStr "online")]])
        else
          let '(st', acts) :=
            reconnect_loop f (attempts + 1)
              (mkGwState false rs' (messagesReceived st) (messagesForwarded st)) in
          (st', ConnectAttempt :: Delay 5000 :: acts)
    end
  else (st, []).

Definition reconnectMQTT (st : GwState) : GwState * list gw_action :=
  reconnect_loop 5 0 st.

Definition event_type_str (et : Z) : string :=
  if et =? 0 then "status"
  else if et =? 1 then "trigger"
  else if et =? 2 then "low_battery"
  else "unknown".

(** The JSON document built in [forwardToMQTT], in insertion order. *)
Definition forward_doc (msg : TrapMessage) (mac : list Z) (now : Z) : json_doc :=
  [("node_id", JUInt (node_id msg));
   ("event_type", JUInt (event_type msg));
   ("trap_count", JUInt (trap_count msg));
   ("battery_voltage", JFloat (battery_voltage msg));
   ("route_hops", JUInt (route_hops msg));
   ("timestamp", JUInt (timestamp msg));
   ("gateway_time", JUInt now);
   ("mac_address", JStr (mac_string mac));
   ("event_type_str", JStr (event_type_str (event_type msg)))].

(** [snprintf(topic, 64, "%s%d/%s", mqtt_topic_prefix, msg.node_id, eventTypeStr)]. *)
Definition forward_topic (msg : TrapMessage) : string :=
  mqtt_topic_prefix ++ decimal (node_id msg) ++ "/" ++ event_type_str (event_type msg).

(** [forwardToMQTT(msg, mac)]; [now] is [millis()], [pub_ok] the result of
    [mqttClient.publish]. *)
Definition forwardToMQTT (st : GwState) (msg : TrapMessage) (mac : list Z)
    (now : Z) (pub_ok : bool) : GwState * list gw_action :=
  let '(st1, acts1) := if negb (connected st) then reconnectMQTT st else (st, []) in
  if negb (connected st1) then (st1, acts1)
  else
    let st2 := if pub_ok
               then mkGwState (connected st1) (conn_results st1)
                      (messagesReceived st1) (u32_incr (messagesForwarded st1))
               else st1 in
    (st2, (acts1 ++ [Publish (forward_topic msg) (forward_doc msg mac now)])%list).

(** [onDataReceive(mac, data, len)]. *)
Definition onDataReceive (st : GwState) (mac : list Z) (data : list Z)
    (now : Z) (pub_ok : bool) : GwState * list gw_action :=
  let st1 := mkGwState (connected st) (conn_results st)
               (u32_incr (messagesReceived st)) (messagesForwarded st) in
  match decode data with
  | None => (st1, [])
  | Some msg => forwardToMQTT st1 msg mac now pub_ok
  end.

(* ================================================================== *)
(** ** Codec lemmas *)

Lemma of_le32_le32 (x : Z) :
  0 <= x < two32 ->
  of_le32 (x mod 256) ((x / 256) mod 256) ((x / 65536) mod 256) ((x / 16777216) mod 256) = x.
Proof.
  unfold of_le32, two32; intros H.
  Z.to_euclidean_division_equations; lia.
Qed.

Lemma decode_encode (pad : list Z) (m : TrapMessage) :
  msg_wf m -> decode (encode pad m) = Some m.
Proof.
  destruct m as [n e c v h s].
  unfold msg_wf; simpl; intros (Hn & He & Hc & Hv & Hh & Hs).
  unfold decode, encode, le32; simpl.
  rewrite !of_le32_le32 by assumption.
  reflexivity.
Qed.

Lemma decode_bad_length (data : list Z) :
  Z.of_nat (List.length data) <> sizeof_TrapMessage -> decode data = None.
Proof.
  intros H; unfold decode.
  destruct (Z.of_nat (List.length data) =? sizeof_TrapMessage) eqn:E.
  - apply Z.eqb_eq in E; contradiction.
  - reflexivity.
Qed.

Lemma decode_some_length (data : list Z) (m : TrapMessage) :
  decode data = Some m -> Z.of_nat (List.length data) = sizeof_TrapMessage.
Proof.
  intros H.
  destruct (Z.eq_dec (Z.of_nat (List.length data)) sizeof_TrapMessage) as [E|E]; auto.
  rewrite decode_bad_length in H by exact E; discriminate.
Qed.

(* ================================================================== *)
(** ** Reconnection lemmas *)

Definition fail_round : list gw_action := [ConnectAttempt; Delay 5000].

Definition online_round : list gw_action :=
  [ConnectAttempt; Publish gateway_status_topic [("status", JStr "online")]].

Lemma nth_next_connect_0 (rs : list bool) :
  fst (next_connect rs) = nth 0 rs false.
Proof. destruct rs; reflexivity. Qed.

Lemma nth_next_connect_S (rs : list bool) (j : nat) :
  nth j (snd (next_connect rs)) false = nth (S j) rs false.
Proof. destruct rs; [destruct j|]; reflexivity. Qed.

Lemma reconnect_loop_counters (k : nat) (a : Z) (st : GwState) :
  messagesReceived (fst (reconnect_loop k a st)) = messagesReceived st /\
  messagesForwarded (fst (reconnect_loop k a st)) = messagesForwarded st.
Proof.
  revert a st; induction k as [|k IH]; intros a st; simpl;
    destruct (negb (connected st) && (a <? 5)); simpl; auto.
  destruct (next_connect (conn_results st)) as [ok rs'].
  destruct ok; simpl; auto.
  specialize (IH (a + 1) (mkGwState false rs' (messagesReceived st) (messagesForwarded st))).
  destruct (reconnect_loop k (a + 1) _) as [st' acts]; simpl in *; exact IH.
Qed.

Lemma reconnect_loop_connected (k : nat) (a : Z) (st : GwState) :
  connected st = true -> reconnect_loop k a st = (st, []).
Proof. intros H; destruct k; simpl; rewrite H; reflexivity. Qed.

Lemma reconnect_loop_fail (k : nat) (a : Z) (st : GwState) :
  connected st = false -> a + Z.of_nat k = 5 ->
  (forall i, (i < k)%nat -> nth i (conn_results st) false = false) ->
  snd (reconnect_loop k a st) = List.concat (List.repeat fail_round k) /\
  connected (fst (reconnect_loop k a st)) = false.
Proof.
  revert a st; induction k as [|k IH]; intros a st Hc Ha Hf.
  - simpl; rewrite Hc; replace (a <? 5) with false by (symmetry; apply Z.ltb_ge; lia).
    simpl; auto.
  - simpl; rewrite Hc; replace (a <? 5) with true by (symmetry; apply Z.ltb_lt; lia).
    simpl.
    pose proof (nth_next_connect_0 (conn_results st)) as H0.
    pose proof (nth_next_connect_S (conn_results st)) as HS.
    destruct (next_connect (conn_results st)) as [ok rs']; simpl in H0, HS.
    rewrite Hf in H0 by lia; subst ok.
    destruct (IH (a + 1) (mkGwState false rs' (messagesReceived st) (messagesForwarded st)))
      as [IH1 IH2]; [reflexivity | lia | |].
    + intros i Hi; simpl; rewrite HS; apply Hf; lia.
    + destruct (reconnect_loop k (a + 1) _) as [st' acts]; simpl in *.
      rewrite IH1; auto.
Qed.

Lemma reconnect_loop_success (i k : nat) (a : Z) (st : GwState) :
  (i < k)%nat -> connected st = false -> a + Z.of_nat k = 5 ->
  (forall j, (j < i)%nat -> nth j (conn_results st) false = false) ->
  nth i (conn_results st) false = true ->
  snd (reconnect_loop k a st) = (List.concat (List.repeat fail_round i) ++ online_round)%list /\
  connected (fst (reconnect_loop k a st)) = true.
Proof.
  revert i a st; induction k as [|k IH]; intros i a st Hi Hc Ha Hf Ht; [lia|].
  simpl; rewrite Hc; replace (a <? 5) with true by (symmetry; apply Z.ltb_lt; lia).
  simpl.
  pose proof (nth_next_connect_0 (conn_results st)) as H0.
  pose proof (nth_next_connect_S (conn_results st)) as HS.
  destruct (next_connect (conn_results st)) as [ok rs']; simpl in H0, HS.
  destruct i as [|i].
  - rewrite Ht in H0; subst ok; simpl; auto.
  - rewrite Hf in H0 by lia; subst ok.
    destruct (IH i (a + 1) (mkGwState false rs' (messagesReceived st) (messagesForwarded st)))
      as [IH1 IH2]; [lia | reflexivity | lia | | |].
    + intros j Hj; simpl; rewrite HS; apply Hf; lia.
    + simpl; rewrite HS; exact Ht.
    + destruct (reconnect_loop k (a + 1) _) as [st' acts]; simpl in *.
      rewrite IH1; auto.
Qed.

Definition is_attempt (x : gw_action) : bool :=
  match x with ConnectAttempt => true | _ => false end.

Definition attempts_in (acts : list gw_action) : nat := List.length (filter is_attempt acts).

Lemma reconnect_loop_attempts (k : nat) (a : Z) (st : GwState) :
  (attempts_in (snd (reconnect_loop k a st)) <= k)%nat.
Proof.
  unfold attempts_in.
  revert a st; induction k as [|k IH]; intros a st; simpl;
    destruct (negb (connected st) && (a <? 5)); simpl; try lia.
  destruct (next_connect (conn_results st)) as [ok rs'].
  destruct ok; [cbn; lia|].
  specialize (IH (a + 1) (mkGwState false rs' (messagesReceived st) (messagesForwarded st))).
  destruct (reconnect_loop k (a + 1) _) as [st' acts]; simpl in *; lia.
Qed.

Lemma forward_connected (st : GwState) (m : TrapMessage) (mac : list Z) (now : Z) (ok : bool) :
  connected st = true ->
  snd (forwardToMQTT st m mac now ok) = [Publish (forward_topic m) (forward_doc m mac now)].
Proof. intros H; unfold forwardToMQTT; rewrite H; simpl; rewrite H; reflexivity. Qed.

Lemma event_type_str_valid (e : Z) :
  0 <= e <= 2 -> In (event_type_str e) ["status"; "trigger"; "low_battery"].
Proof.
  intros H; unfold event_type_str.
  assert (e = 0 \/ e = 1 \/ e = 2) as [-> | [-> | ->]] by lia; simpl; auto.
Qed.

Lemma event_type_str_unknown (e : Z) : 3 <= e -> event_type_str e = "unknown".
Proof.
  intros H; unfold event_type_str.
  replace (e =? 0) with false by (symmetry; apply Z.eqb_neq; lia).
  replace (e =? 1) with false by (symmetry; apply Z.eqb_neq; lia).
  replace (e =? 2) with false by (symmetry; apply Z.eqb_neq; lia).
  reflexivity.
Qed.

(* ================================================================== *)
(** ** Claims about the codec and the gateway *)

(** C2: encoding a well-formed TrapMessage to its fixed 20-byte frame and
    decoding it gives back every field; the frame has exactly the fixed size;
    any byte sequence of another length is rejected ([None]), never a
    partially filled message. *)
Theorem C2_codec_roundtrip (pad : list Z) (m : TrapMessage) (data : list Z)
    (Hwf : msg_wf m) :
  decode (encode pad m) = Some m /\
  Z.of_nat (List.length (encode pad m)) = sizeof_TrapMessage /\
  (Z.of_nat (List.length data) <> sizeof_TrapMessage -> decode data = None).
Proof.
  split; [apply decode_encode; exact Hwf|].
  split; [reflexivity|].
  apply decode_bad_length.
Qed.

(** C3: with the broker connected, a valid frame (a well-formed message whose
    event_type is 0, 1 or 2) leads to exactly one publish, on topic
    [trap/<node_id>/<name>] with [name] one of status, trigger, low_battery,
    whose payload carries every message field, the gateway's [millis()] and
    the sender's MAC address. *)
Theorem C3_connected_single_publish (st : GwState) (mac pad : list Z) (m : TrapMessage)
    (now : Z) (pub_ok : bool)
    (Hc : connected st = true) (Hwf : msg_wf m) (Het : event_type m <= 2) :
  exists name doc,
    snd (onDataReceive st mac (encode pad m) now pub_ok) =
      [Publish (mqtt_topic_prefix ++ decimal (node_id m) ++ "/" ++ name) doc] /\
    mqtt_topic_prefix = "trap/" /\
    In name ["status"; "trigger"; "low_battery"] /\
    name = event_type_str (event_type m) /\
    In ("node_id", JUInt (node_id m)) doc /\
    In ("event_type", JUInt (event_type m)) doc /\
    In ("event_type_str", JStr name) doc /\
    In ("trap_count", JUInt (trap_count m)) doc /\
    In ("battery_voltage", JFloat (battery_voltage m)) doc /\
    In ("route_hops", JUInt (route_hops m)) doc /\
    In ("timestamp", JUInt (timestamp m)) doc /\
    In ("gateway_time", JUInt now) doc /\
    In ("mac_address", JStr (mac_string mac)) doc.
Proof.
  exists (event_type_str (event_type m)), (forward_doc m mac now).
  unfold onDataReceive; rewrite decode_encode by exact Hwf.
  rewrite forward_connected by (simpl; exact Hc).
  split; [reflexivity|].
  split; [reflexivity|].
  split; [apply event_type_str_valid; destruct Hwf as (_ & He & _); lia|].
  split; [reflexivity|].
  unfold forward_doc; simpl; tauto.
Qed.

Lemma forward_disconnected (st : GwState) (m : TrapMessage) (mac : list Z) (now : Z)
    (ok : bool) :
  connected st = false ->
  let r := forwardToMQTT st m mac now ok in
  messagesReceived (fst r) = messagesReceived st /\
  ((forall i, (i < 5)%nat -> nth i (conn_results st) false = false) ->
     snd r = List.concat (List.repeat fail_round 5) /\
     messagesForwarded (fst r) = messagesForwarded st /\ connected (fst r) = false) /\
  (forall i, (i < 5)%nat ->
     (forall j, (j < i)%nat -> nth j (conn_results st) false = false) ->
     nth i (conn_results st) false = true ->
     snd r = (List.concat (List.repeat fail_round i) ++ online_round
              ++ [Publish (forward_topic m) (forward_doc m mac now)])%list /\
     messagesForwarded (fst r) =
       if ok then u32_incr (messagesForwarded st) else messagesForwarded st).
Proof.
  intros Hd; unfold forwardToMQTT, reconnectMQTT; rewrite Hd; cbn [negb].
  pose proof (reconnect_loop_counters 5 0 st) as [Cr Cf].
  pose proof (reconnect_loop_fail 5 0 st Hd eq_refl) as Hfail.
  pose proof (fun i Hi => reconnect_loop_success i 5 0 st Hi Hd eq_refl) as Hsucc.
  destruct (reconnect_loop 5 0 st) as [st2 acts] eqn:E; simpl in Cr, Cf, Hfail, Hsucc.
  split; [|split].
  - destruct (connected st2); simpl; [destruct ok|]; simpl; exact Cr.
  - intros Hall; destruct (Hfail Hall) as [Ha Hc2]; rewrite Hc2; simpl; auto.
  - intros i Hi Hpre Hi1; destruct (Hsucc i Hi Hpre Hi1) as [Ha Hc2].
    rewrite Hc2; simpl; rewrite Ha, <- app_assoc.
    split; [reflexivity|]; destruct ok; simpl; rewrite Cf; reflexivity.
Qed.

(** C4 (as amended): a valid frame received while the broker is disconnected
    is still counted in messages_received and decoded; the gateway then runs
    its reconnection routine.  If none of its (at most 5) attempts succeeds,
    no publish is issued, nothing is kept, and messages_forwarded is unchanged;
    if an attempt succeeds, the frame is published once after the
    reconnection's own online publish, and messages_forwarded increments when
    that publish succeeds. *)
Theorem C4_disconnected_receive (st : GwState) (mac data : list Z) (m : TrapMessage)
    (now : Z) (pub_ok : bool)
    (Hd : connected st = false) (Hm : decode data = Some m) :
  let r := onDataReceive st mac data now pub_ok in
  messagesReceived (fst r) = u32_incr (messagesReceived st) /\
  ((forall i, (i < 5)%nat -> nth i (conn_results st) false = false) ->
     snd r = List.concat (List.repeat fail_round 5) /\
     messagesForwarded (fst r) = messagesForwarded st /\ connected (fst r) = false) /\
  (forall i, (i < 5)%nat ->
     (forall j, (j < i)%nat -> nth j (conn_results st) false = false) ->
     nth i (conn_results st) false = true ->
     snd r = (List.concat (List.repeat fail_round i) ++ online_round
              ++ [Publish (forward_topic m) (forward_doc m mac now)])%list /\
     messagesForwarded (fst r) =
       if pub_ok then u32_incr (messagesForwarded st) else messagesForwarded st).
Proof.
  unfold onDataReceive; rewrite Hm.
  exact (forward_disconnected
           (mkGwState (connected st) (conn_results st)
              (u32_incr (messagesReceived st)) (messagesForwarded st))
           m mac now pub_ok Hd).
Qed.

(** The claim as written: a frame received while disconnected is never
    published and leaves messages_forwarded unchanged.  It fails when the
    on-demand reconnection in [forwardToMQTT] succeeds at once. *)
Lemma C4_counterexample :
  let st := mkGwState false [true] 0 0 in
  let msg := mkTrapMessage 1 1 5 1081530941 0 123456 in
  let r := onDataReceive st [36; 10; 196; 18; 52; 86] (encode [] msg) 0 true in
  connected st = false /\
  messagesForwarded (fst r) = 1 /\ messagesForwarded st = 0 /\
  In (Publish "trap/1/trigger" (forward_doc msg [36; 10; 196; 18; 52; 86] 0)) (snd r).
Proof. vm_compute; auto 10. Qed.

(** C5 (as amended): a frame whose length is not sizeof(TrapMessage) is
    dropped (no action, connection and messages_forwarded untouched) but it
    does increment messages_received; a frame of the right size whose
    event_type is not 0, 1 or 2 is not dropped: with the broker connected it
    is published on [trap/<node_id>/unknown]. *)
Theorem C5_malformed_frames (st : GwState) (mac data pad : list Z) (m : TrapMessage)
    (now : Z) (pub_ok : bool) :
  (Z.of_nat (List.length data) <> sizeof_TrapMessage ->
     onDataReceive st mac data now pub_ok =
       (mkGwState (connected st) (conn_results st)
          (u32_incr (messagesReceived st)) (messagesForwarded st), [])) /\
  (connected st = true -> msg_wf m -> 3 <= event_type m ->
     snd (onDataReceive st mac (encode pad m) now pub_ok) =
       [Publish (mqtt_topic_prefix ++ decimal (node_id m) ++ "/unknown")
          (forward_doc m mac now)]).
Proof.
  split.
  - intros Hl; unfold onDataReceive; rewrite decode_bad_length by exact Hl; reflexivity.
  - intros Hc Hwf He; unfold onDataReceive; rewrite decode_encode by exact Hwf.
    rewrite forward_connected by (simpl; exact Hc).
    unfold forward_topic; rewrite event_type_str_unknown by exact He; reflexivity.
Qed.

(** The claim as written: a malformed frame changes no gateway state and is
    never forwarded.  A 3-byte frame bumps messages_received, and a 20-byte
    frame with event_type 7 is published. *)
Lemma C5_counterexample :
  let st := mkGwState true [] 0 0 in
  let mac := [36; 10; 196; 18; 52; 86] in
  let bad := mkTrapMessage 1 7 5 1081530941 0 123456 in
  messagesReceived (fst (onDataReceive st mac [1; 2; 3] 0 true)) = 1 /\
  snd (onDataReceive st mac (encode [] bad) 0 true) =
    [Publish "trap/1/unknown" (forward_doc bad mac 0)] /\
  messagesForwarded (fst (onDataReceive st mac (encode [] bad) 0 true)) = 1.
Proof. vm_compute; auto. Qed.

(** C9: [reconnectMQTT] started while disconnected makes at most 5 connection
    attempts.  If the first 5 answers of the broker are failures it makes
    exactly 5 attempts, each followed by [delay(5000)] (5 s), and returns still
    disconnected; if attempt [i] (0-based, [i < 5]) is the first success, the
    [i] earlier failures are each followed by the 5 s delay and the routine
    returns connected right after the successful attempt (and its online
    publish), with no further attempt. *)
Theorem C9_reconnect_bounded (st : GwState) (Hd : connected st = false) :
  (attempts_in (snd (reconnectMQTT st)) <= 5)%nat /\
  ((forall i, (i < 5)%nat -> nth i (conn_results st) false = false) ->
     snd (reconnectMQTT st) = List.concat (List.repeat [ConnectAttempt; Delay 5000] 5) /\
     connected (fst (reconnectMQTT st)) = false) /\
  (forall i, (i < 5)%nat ->
     (forall j, (j < i)%nat -> nth j (conn_results st) false = false) ->
     nth i (conn_results st) false = true ->
     snd (reconnectMQTT st) =
       (List.concat (List.repeat [ConnectAttempt; Delay 5000] i)
        ++ [ConnectAttempt; Publish gateway_status_topic [("status", JStr "online")]])%list /\
     connected (fst (reconnectMQTT st)) = true).
Proof.
  split; [apply reconnect_loop_attempts|].
  split.
  - intros Hall; exact (reconnect_loop_fail 5 0 st Hd eq_refl Hall).
  - intros i Hi Hpre Hi1; exact (reconnect_loop_success i 5 0 st Hi Hd eq_refl Hpre Hi1).
Qed.

(* ================================================================== *)
(** ** Node transport: [sendMessage] *)

(** [esp_err_t] result code of [esp_now_send]; [ESP_OK] is 0. *)
Definition ESP_OK : Z := 0.

(** Bound of the confirmation wait, in ms ([millis() - startTime < 1000]). *)
Definition SEND_WAIT_MS : Z := 1000.

(** The global [messageSent], [elapsed] ms after [startTime].  It is cleared
    before [esp_now_send]; [onDataSent] sets it to [true] whatever the send
    status, at time [cb_at] ([None]: the callback never runs). *)
Definition messageSent_at (cb_at : option Z) (elapsed : Z) : bool :=
  match cb_at with
  | Some t => t <=? elapsed
  | None => false
  end.

(** [while (!messageSent && (millis() - startTime < 1000)) delay(10);
    return messageSent;] with the loop body taking exactly 10 ms. *)
Fixpoint wait_confirm (fuel : nat) (cb_at : option Z) (elapsed : Z) : bool :=
  match fuel with
  | O => messageSent_at cb_at elapsed
  | S f =>
      if negb (messageSent_at cb_at elapsed) && (elapsed <? SEND_WAIT_MS)
      then wait_confirm f cb_at (elapsed + 10)
      else messageSent_at cb_at elapsed
  end.

(** [sendMessage]: [result] is what [esp_now_send] returned. *)
Definition sendMessage (result : Z) (cb_at : option Z) : bool :=
  if result =? ESP_OK then wait_confirm 101 cb_at 0 else false.

(* ================================================================== *)
(** ** Node wake cycle: [setup] *)

Inductive wakeup_cause :=
| ESP_SLEEP_WAKEUP_UNDEFINED   (** cold power-on *)
| ESP_SLEEP_WAKEUP_EXT0        (** reed switch line *)
| ESP_SLEEP_WAKEUP_TIMER       (** sleep timer *)
| ESP_SLEEP_WAKEUP_OTHER.

Definition is_ext0 (c : wakeup_cause) : bool :=
  match c with ESP_SLEEP_WAKEUP_EXT0 => true | _ => false end.

(** The [RTC_DATA_ATTR] globals: kept across deep sleep, zeroed at power-on. *)
Record RtcState := mkRtcState {
  trapCount : Z;
  wakeCount : Z;
  lastTriggerTime : Z
}.

Definition rtc_power_on : RtcState := mkRtcState 0 0 0.

Definition BATTERY_CHECK_INTERVAL : Z := 10.

(** [LOW_BATTERY_THRESHOLD] is the double literal [3.3], i.e. exactly
    7430939385161318 / 2^51; the float [voltage] is promoted to double for the
    comparison, which is exact on rationals. *)
Definition LOW_BATTERY_THRESHOLD : Q := Qmake 7430939385161318 2251799813685248.

Definition Qltb (x y : Q) : bool := negb (Qle_bool y x).

(** One run of [setup]: [voltage] is the value read by [readBatteryVoltage()]
    at the top of [setup], [now] is [millis()], [init_res] and [peer_res] are
    the results of [esp_now_init()] and [esp_now_add_peer(&peerInfo)].  If
    either is not [ESP_OK], [setup] blinks and calls [ESP.restart()] before
    looking at the wake cause: nothing is sent, and the software reset
    re-initialises the [RTC_DATA_ATTR] globals (only a wake-up from deep sleep
    keeps them); the node then boots again with wake cause UNDEFINED, the next
    [Wake] of a run.  The result lists the [eventType] of every [sendMessage]
    call, in order. *)
Definition setup_cycle (st : RtcState) (cause : wakeup_cause) (voltage : Q) (now : Z)
    (init_res peer_res : Z) : RtcState * list Z :=
  if negb (init_res =? ESP_OK) then (rtc_power_on, [])
  else if negb (peer_res =? ESP_OK) then (rtc_power_on, [])
  else
  let '(st1, sent) :=
    if is_ext0 cause then
      (mkRtcState (u32_incr (trapCount st)) (wakeCount st) (now mod two32), [1])
    else if wakeCount st mod BATTERY_CHECK_INTERVAL =? 0 then
      if Qltb voltage LOW_BATTERY_THRESHOLD then (st, [2]) else (st, [0])
    else (st, []) in
  (mkRtcState (trapCount st1) (u32_incr (wakeCount st1)) (lastTriggerTime st1), sent).

(** What happens to the node between deep sleeps. *)
Inductive node_event :=
| Wake (cause : wakeup_cause) (voltage : Q) (now : Z) (init_res peer_res : Z)
| PowerLoss.

Definition node_step (st : RtcState) (ev : node_event) : RtcState * list Z :=
  match ev with
  | Wake c v now i p => setup_cycle st c v now i p
  | PowerLoss => (rtc_power_on, [])
  end.

(** Final RTC state and the messages sent in each cycle. *)
Fixpoint run_node (st : RtcState) (evs : list node_event) : RtcState * list (list Z) :=
  match evs with
  | [] => (st, [])
  | ev :: evs' =>
      let (st1, sent) := node_step st ev in
      let (st2, outs) := run_node st1 evs' in
      (st2, sent :: outs)
  end.

Definition count_ext0 (evs : list node_event) : Z :=
  fold_right (fun ev n => match ev with
                          | Wake c _ _ _ _ => if is_ext0 c then n + 1 else n
                          | PowerLoss => n
                          end) 0 evs.

(** A wake whose ESP-NOW initialisation and peer registration succeed. *)
Definition wake_ok (ev : node_event) : bool :=
  match ev with
  | Wake _ _ _ i p => (i =? ESP_OK) && (p =? ESP_OK)
  | PowerLoss => false
  end.

Definition count_timer (evs : list node_event) : Z :=
  fold_right (fun ev n => match ev with
                          | Wake ESP_SLEEP_WAKEUP_TIMER _ _ _ _ => n + 1
                          | _ => n
                          end) 0 evs.

(* ================================================================== *)
(** ** Node lemmas *)

Lemma wait_confirm_spec (cb_at : option Z) (n : nat) (e : Z) :
  0 <= e <= SEND_WAIT_MS -> (SEND_WAIT_MS - e) mod 10 = 0 ->
  SEND_WAIT_MS <= e + 10 * Z.of_nat n ->
  wait_confirm n cb_at e = messageSent_at cb_at SEND_WAIT_MS.
Proof.
  unfold SEND_WAIT_MS.
  revert e; induction n as [|n IH]; intros e He Hm Hn; simpl; unfold SEND_WAIT_MS.
  - replace e with 1000 by lia; reflexivity.
  - destruct (messageSent_at cb_at e) eqn:Es; simpl.
    + destruct cb_at as [t|]; simpl in *; [|discriminate].
      apply Z.leb_le in Es; symmetry; apply Z.leb_le; lia.
    + destruct (e <? 1000) eqn:El.
      * apply Z.ltb_lt in El; apply IH; Z.to_euclidean_division_equations; lia.
      * apply Z.ltb_ge in El; replace e with 1000 in * by lia; rewrite Es; reflexivity.
Qed.

Lemma Qltb_iff (x y : Q) : Qltb x y = true <-> (x < y)%Q.
Proof.
  unfold Qltb; rewrite negb_true_iff; split; intros H.
  - apply Qnot_le_lt; intros Hle; apply Qle_bool_iff in Hle; congruence.
  - destruct (Qle_bool y x) eqn:E; auto.
    apply Qle_bool_iff in E; exfalso; apply (Qlt_not_le x y); auto.
Qed.

Lemma setup_cycle_fail (st : RtcState) (c : wakeup_cause) (v : Q) (now i p : Z) :
  i <> ESP_OK \/ p <> ESP_OK -> setup_cycle st c v now i p = (rtc_power_on, []).
Proof.
  intros H; unfold setup_cycle.
  destruct (i =? ESP_OK) eqn:Ei; [| reflexivity].
  destruct (p =? ESP_OK) eqn:Ep; [| reflexivity].
  apply Z.eqb_eq in Ei; apply Z.eqb_eq in Ep; destruct H; contradiction.
Qed.

Lemma setup_cycle_trapCount (st : RtcState) (c : wakeup_cause) (v : Q) (now : Z) :
  trapCount (fst (setup_cycle st c v now ESP_OK ESP_OK)) =
    if is_ext0 c then u32_incr (trapCount st) else trapCount st.
Proof.
  unfold setup_cycle; simpl; destruct (is_ext0 c); [reflexivity|].
  destruct (wakeCount st mod BATTERY_CHECK_INTERVAL =? 0);
    [destruct (Qltb v LOW_BATTERY_THRESHOLD)|]; reflexivity.
Qed.

Lemma setup_cycle_timer_sent (st : RtcState) (v : Q) (now : Z) :
  snd (setup_cycle st ESP_SLEEP_WAKEUP_TIMER v now ESP_OK ESP_OK) =
    if wakeCount st mod BATTERY_CHECK_INTERVAL =? 0 then
      (if Qltb v LOW_BATTERY_THRESHOLD then [2] else [0])
    else [].
Proof.
  unfold setup_cycle; simpl.
  destruct (wakeCount st mod BATTERY_CHECK_INTERVAL =? 0);
    [destruct (Qltb v LOW_BATTERY_THRESHOLD)|]; reflexivity.
Qed.

Lemma wake_ok_inv (ev : node_event) :
  wake_ok ev = true -> exists c v now, ev = Wake c v now ESP_OK ESP_OK.
Proof.
  destruct ev as [c v now i p|]; simpl; [| discriminate].
  intros H; apply andb_true_iff in H as [Hi Hp].
  apply Z.eqb_eq in Hi; apply Z.eqb_eq in Hp; subst; eauto.
Qed.

Lemma count_ext0_nonneg (evs : list node_event) : 0 <= count_ext0 evs.
Proof.
  induction evs as [|ev evs IHe]; simpl; [lia|].
  destruct ev as [c' v' n' i' p'|]; [destruct (is_ext0 c')|]; lia.
Qed.

Lemma run_node_trapCount (st : RtcState) (evs : list node_event) :
  forallb wake_ok evs = true -> 0 <= trapCount st ->
  trapCount st + count_ext0 evs < two32 ->
  trapCount (fst (run_node st evs)) = trapCount st + count_ext0 evs.
Proof.
  revert st; induction evs as [|ev evs IH]; intros st Hok H0 Hw; simpl.
  - simpl in Hw |- *; lia.
  - simpl in Hok; apply andb_true_iff in Hok as [Hev Hok].
    destruct (wake_ok_inv ev Hev) as (c & v & now & ->).
    pose proof (count_ext0_nonneg evs) as Hc.
    simpl in Hw |- *.
    pose proof (setup_cycle_trapCount st c v now) as Ht.
    destruct (setup_cycle st c v now ESP_OK ESP_OK) as [st1 sent]; simpl in Ht.
    specialize (IH st1 Hok).
    destruct (run_node st1 evs) as [st2 outs]; simpl in IH |- *.
    destruct (is_ext0 c).
    + unfold u32_incr in Ht; rewrite Z.mod_small in Ht by (unfold two32 in *; lia).
      rewrite IH; lia.
    + rewrite IH; lia.
Qed.

(* ================================================================== *)
(** ** Claims about the node *)

(** C1: [sendMessage] returns true exactly when [esp_now_send] returned
    [ESP_OK] and the send callback ran within the 1000 ms wait; it returns
    false when the send call failed, when the callback never ran, and when it
    ran after the wait. *)
Theorem C1_sendMessage_result (result : Z) (cb_at : option Z) :
  sendMessage result cb_at = true <->
  result = ESP_OK /\ exists t, cb_at = Some t /\ t <= SEND_WAIT_MS.
Proof.
  unfold sendMessage.
  rewrite (wait_confirm_spec cb_at 101 0) by (unfold SEND_WAIT_MS; cbn; lia).
  destruct (result =? ESP_OK) eqn:E.
  - apply Z.eqb_eq in E; split.
    + intros H; split; [exact E|].
      destruct cb_at as [t|]; simpl in H; [|discriminate].
      exists t; split; [reflexivity|]; apply Z.leb_le; exact H.
    + intros (_ & t & -> & Ht); simpl; apply Z.leb_le; exact Ht.
  - apply Z.eqb_neq in E; split; [discriminate|].
    intros [H _]; contradiction.
Qed.

(** C6 (as amended): trapCount is a [uint32_t] in RTC memory.  On a wake
    whose ESP-NOW initialisation and peer registration succeed, an EXT0 (reed
    switch) wake adds 1 modulo 2^32 and any other wake leaves it as it is; a
    wake where either fails restarts the chip, which zeroes it, and so does a
    power loss.  So over such wakes, as long as the count does not pass
    2^32 - 1, it ends at its start value plus the number of EXT0 wakes, and
    never decreases. *)
Theorem C6_trap_count (st : RtcState) (evs : list node_event)
    (Hok : forallb wake_ok evs = true) (H0 : 0 <= trapCount st)
    (Hw : trapCount st + count_ext0 evs < two32) :
  trapCount (fst (run_node st evs)) = trapCount st + count_ext0 evs /\
  trapCount st <= trapCount (fst (run_node st evs)) /\
  (forall st' c v now,
     trapCount (fst (node_step st' (Wake c v now ESP_OK ESP_OK))) =
       if is_ext0 c then u32_incr (trapCount st') else trapCount st') /\
  (forall st' c v now i p, i <> ESP_OK \/ p <> ESP_OK ->
     trapCount (fst (node_step st' (Wake c v now i p))) = 0) /\
  (forall st', trapCount (fst (node_step st' PowerLoss)) = 0).
Proof.
  pose proof (count_ext0_nonneg evs) as Hc.
  rewrite run_node_trapCount by assumption.
  split; [reflexivity|]; split; [lia|]; split; [|split].
  - intros st' c v now; apply setup_cycle_trapCount.
  - intros st' c v now i p H; simpl; rewrite setup_cycle_fail by exact H; reflexivity.
  - reflexivity.
Qed.

(** C6 as written ("non-decreasing for every sequence of wake cycles", "resets
    only on full power loss") fails twice: at the [uint32_t] wrap, one trigger
    wake at 2^32 - 1 gives 0; and a trigger wake whose peer registration fails
    restarts the chip, which zeroes the count without any power loss. *)
Lemma C6_counterexample :
  let st := mkRtcState (two32 - 1) 3 0 in
  let st' := fst (run_node st [Wake ESP_SLEEP_WAKEUP_EXT0 (Qmake 4 1) 500 ESP_OK ESP_OK]) in
  trapCount st' = 0 /\ trapCount st' < trapCount st /\
  trapCount (fst (run_node (mkRtcState 5 3 0)
                    [Wake ESP_SLEEP_WAKEUP_EXT0 (Qmake 4 1) 500 ESP_OK (-1)])) = 0.
Proof. vm_compute; split; [reflexivity | split; reflexivity]. Qed.

Lemma setup_cycle_wakeCount (st : RtcState) (c : wakeup_cause) (v : Q) (now : Z) :
  wakeCount (fst (setup_cycle st c v now ESP_OK ESP_OK)) = u32_incr (wakeCount st).
Proof.
  unfold setup_cycle; simpl; destruct (is_ext0 c); [reflexivity |].
  destruct (wakeCount st mod BATTERY_CHECK_INTERVAL =? 0); [destruct (Qltb v _) |]; reflexivity.
Qed.

(** C7 (as amended): on a timer wake whose ESP-NOW initialisation and peer
    registration succeed, a Status (0) or LowBattery (2) message is sent only
    when wakeCount, the number of wake cycles of any cause since the RTC data
    was last initialised, is a multiple of BATTERY_CHECK_INTERVAL (10); on such
    a wake the node sends LowBattery alone if the voltage is below the 3.3
    threshold and Status alone otherwise.  A timer wake where either fails
    sends nothing and restarts the chip, which zeroes wakeCount.  Never both
    messages.  Every such successful wake, whatever its cause, adds one to
    wakeCount. *)
Theorem C7_timer_wake_messages (st : RtcState) (v : Q) (now i p : Z) :
  let sent := snd (setup_cycle st ESP_SLEEP_WAKEUP_TIMER v now i p) in
  ((In 0 sent \/ In 2 sent) ->
     wakeCount st mod BATTERY_CHECK_INTERVAL = 0 /\ i = ESP_OK /\ p = ESP_OK) /\
  (i = ESP_OK -> p = ESP_OK ->
     wakeCount st mod BATTERY_CHECK_INTERVAL = 0 -> (v < LOW_BATTERY_THRESHOLD)%Q ->
     sent = [2]) /\
  (i = ESP_OK -> p = ESP_OK ->
     wakeCount st mod BATTERY_CHECK_INTERVAL = 0 -> ~ (v < LOW_BATTERY_THRESHOLD)%Q ->
     sent = [0]) /\
  ~ (In 0 sent /\ In 2 sent) /\
  (i <> ESP_OK \/ p <> ESP_OK ->
     sent = [] /\ fst (setup_cycle st ESP_SLEEP_WAKEUP_TIMER v now i p) = rtc_power_on) /\
  (forall c, i = ESP_OK -> p = ESP_OK ->
     wakeCount (fst (setup_cycle st c v now i p)) = u32_incr (wakeCount st)).
Proof.
  cbv zeta.
  destruct (Z.eq_dec i ESP_OK) as [Ei | Hi];
    [destruct (Z.eq_dec p ESP_OK) as [Ep | Hp] |].
  2, 3: assert (Hf : i <> ESP_OK \/ p <> ESP_OK) by tauto;
        rewrite (setup_cycle_fail st _ v now i p Hf); simpl;
        split; [intros [[]|[]] |];
        split; [intros; contradiction |];
        split; [intros; contradiction |];
        split; [intros [[] _] |];
        split; [intros _; split; reflexivity | intros; contradiction].
  subst i p; rewrite setup_cycle_timer_sent.
  destruct (wakeCount st mod BATTERY_CHECK_INTERVAL =? 0) eqn:Em.
  - apply Z.eqb_eq in Em.
    split; [intros _; auto|].
    split; [intros _ _ _ Hlt; apply Qltb_iff in Hlt; rewrite Hlt; reflexivity|].
    split; [intros _ _ _ Hge; destruct (Qltb v LOW_BATTERY_THRESHOLD) eqn:Eq;
              [apply Qltb_iff in Eq; contradiction | reflexivity]|].
    split.
    + destruct (Qltb v LOW_BATTERY_THRESHOLD); simpl; intros [A B];
        [destruct A as [A|A] | destruct B as [B|B]]; try discriminate; contradiction.
    + split; [intros [H | H]; contradiction H; reflexivity |].
      intros c _ _; apply setup_cycle_wakeCount.
  - apply Z.eqb_neq in Em.
    split; [simpl; intros [[]|[]]|].
    split; [intros _ _ H; contradiction|].
    split; [intros _ _ H; contradiction|].
    split; [simpl; intros [[] _]|].
    split; [intros [H | H]; contradiction H; reflexivity |].
    intros c _ _; apply setup_cycle_wakeCount.
Qed.

(** C7 as written counts periodic (timer) wakes; the firmware counts all wakes.
    After power-on and one trigger wake, the 9th timer wake sends Status and
    the 10th timer wake sends nothing. *)
Lemma C7_counterexample :
  let v := Qmake 4 1 in
  let timers := List.repeat (Wake ESP_SLEEP_WAKEUP_TIMER v 0 ESP_OK ESP_OK) 10 in
  let evs := (Wake ESP_SLEEP_WAKEUP_UNDEFINED v 0 ESP_OK ESP_OK
              :: Wake ESP_SLEEP_WAKEUP_EXT0 v 0 ESP_OK ESP_OK :: timers)%list in
  let outs := snd (run_node rtc_power_on evs) in
  count_timer (firstn 11 evs) = 9 /\ nth 10 outs [] = [0] /\
  count_timer (firstn 12 evs) = 10 /\ nth 11 outs [] = [].
Proof. vm_compute; auto. Qed.

(** C10: a timer wake whose wakeCount is not a multiple of
    BATTERY_CHECK_INTERVAL sends no message at all, whatever the voltage and
    whatever the outcome of the ESP-NOW initialisation. *)
Theorem C10_timer_wake_silent (st : RtcState) (v : Q) (now i p : Z)
    (Hn : wakeCount st mod BATTERY_CHECK_INTERVAL <> 0) :
  snd (setup_cycle st ESP_SLEEP_WAKEUP_TIMER v now i p) = [].
Proof.
  destruct (Z.eq_dec i ESP_OK) as [-> | Hi];
    [destruct (Z.eq_dec p ESP_OK) as [-> | Hp] |];
    [| rewrite setup_cycle_fail by tauto; reflexivity
     | rewrite setup_cycle_fail by tauto; reflexivity].
  rewrite setup_cycle_timer_sent.
  replace (wakeCount st mod BATTERY_CHECK_INTERVAL =? 0) with false
    by (symmetry; apply Z.eqb_neq; exact Hn).
  reflexivity.
Qed.

(* ================================================================== *)
(** ** Debounce detector: [checkTrapTriggered] *)

Inductive level := LOW | HIGH.

Definition level_eqb (a b : level) : bool :=
  match a, b with
  | LOW, LOW | HIGH, HIGH => true
  | _, _ => false
  end.

Definition DEBOUNCE_MS : Z := 50.
Definition TRIGGER_STABLE_MS : Z := 200.

(** The detector globals [lastDebounceTime], [lastReedState], [reedState]. *)
Record DebState := mkDebState {
  lastDebounceTime : Z;
  lastReedState : level;
  reedState : level
}.

(** Their initial values: [0], [HIGH], [HIGH]. *)
Definition deb_init : DebState := mkDebState 0 HIGH HIGH.

(** [millis()] at real time [t] (ms since boot). *)
Definition millis (t : Z) : Z := t mod two32.

(** One call of [checkTrapTriggered()] at real time [t], with [line u] the
    value [digitalRead(REED_SWITCH_PIN)] returns at real time [u]: the first
    read and both [millis()] calls are taken in the same millisecond [t]; the
    re-read comes after [delay(TRIGGER_STABLE_MS)], at [t + TRIGGER_STABLE_MS]. *)
Definition check_step (line : Z -> level) (d : DebState) (t : Z) : DebState * bool :=
  let reading := line t in
  let ldt := if negb (level_eqb reading (lastReedState d))
             then millis t else lastDebounceTime d in
  if u32_sub (millis t) ldt >? DEBOUNCE_MS then
    if negb (level_eqb reading (reedState d)) then
      if level_eqb reading LOW then
        if level_eqb (line (t + TRIGGER_STABLE_MS)) LOW
        then (mkDebState ldt (lastReedState d) reading, true)
        else (mkDebState ldt reading reading, false)
      else (mkDebState ldt reading reading, false)
    else (mkDebState ldt reading (reedState d), false)
  else (mkDebState ldt reading (reedState d), false).

(** [checkTrapTriggered()] called at each time of [ts] in turn. *)
Fixpoint run_det (line : Z -> level) (d : DebState) (ts : list Z) : list bool :=
  match ts with
  | [] => []
  | t :: ts' => snd (check_step line d t) :: run_det line (fst (check_step line d t)) ts'
  end.

(** The detector state before each call (and after the last). *)
Fixpoint det_states (line : Z -> level) (d : DebState) (ts : list Z) : list DebState :=
  match ts with
  | [] => [d]
  | t :: ts' => d :: det_states line (fst (check_step line d t)) ts'
  end.

(** Calls happen in time order. *)
Fixpoint times_sorted (ts : list Z) : bool :=
  match ts with
  | t1 :: ((t2 :: _) as rest) => (t1 <=? t2) && times_sorted rest
  | _ => true
  end.

(* ------------------------------------------------------------------ *)
(** *** Lemmas on one call *)

Lemma level_eqb_iff (a b : level) : level_eqb a b = true <-> a = b.
Proof. destruct a, b; simpl; split; congruence. Qed.

Lemma u32_sub_diag (x : Z) : u32_sub x x = 0.
Proof. unfold u32_sub; rewrite Z.sub_diag; reflexivity. Qed.

Lemma check_step_lastReedState (line : Z -> level) (d : DebState) (t : Z) :
  lastReedState (fst (check_step line d t)) = line t.
Proof.
  destruct d as [ldt lrs rs]; unfold check_step; simpl.
  destruct (line t), lrs; simpl; rewrite ?u32_sub_diag; simpl; auto;
    destruct (u32_sub (millis t) ldt >? DEBOUNCE_MS); simpl; auto;
    destruct rs, (line (t + TRIGGER_STABLE_MS)); simpl; auto.
Qed.

Lemma check_step_lastDebounceTime (line : Z -> level) (d : DebState) (t : Z) :
  lastDebounceTime (fst (check_step line d t)) =
    if level_eqb (line t) (lastReedState d) then lastDebounceTime d
    else millis t.
Proof.
  destruct d as [ldt lrs rs]; unfold check_step; simpl.
  set (l := if negb (level_eqb (line t) lrs) then millis t else ldt).
  assert (Hl : l = if level_eqb (line t) lrs then ldt else millis t)
    by (unfold l; destruct (level_eqb (line t) lrs); reflexivity).
  rewrite <- Hl.
  destruct (u32_sub (millis t) l >? DEBOUNCE_MS); simpl; auto;
    destruct (line t), rs, (line (t + TRIGGER_STABLE_MS)); simpl; auto.
Qed.

Lemma check_step_signal (line : Z -> level) (d : DebState) (t : Z) :
  snd (check_step line d t) = true ->
  line t = LOW /\ line (t + TRIGGER_STABLE_MS) = LOW /\
  lastReedState d = LOW /\ reedState d = HIGH /\
  u32_sub (millis t) (lastDebounceTime d) > DEBOUNCE_MS /\
  reedState (fst (check_step line d t)) = LOW.
Proof.
  destruct d as [ldt lrs rs]; unfold check_step; simpl.
  destruct (line t), lrs; simpl; rewrite ?u32_sub_diag; simpl; try discriminate;
    destruct (u32_sub (millis t) ldt >? DEBOUNCE_MS) eqn:E; simpl; try discriminate;
    destruct rs, (line (t + TRIGGER_STABLE_MS)); simpl; try discriminate.
  intros _; apply Z.gtb_lt in E; repeat split; auto; lia.
Qed.

Lemma check_step_reopen (line : Z -> level) (d : DebState) (t : Z) :
  reedState d = LOW -> reedState (fst (check_step line d t)) = HIGH ->
  line t = HIGH /\ lastReedState d = HIGH /\
  u32_sub (millis t) (lastDebounceTime d) > DEBOUNCE_MS.
Proof.
  destruct d as [ldt lrs rs]; unfold check_step; simpl; intros ->.
  destruct (line t), lrs; simpl; rewrite ?u32_sub_diag; simpl; try discriminate;
    destruct (u32_sub (millis t) ldt >? DEBOUNCE_MS) eqn:E; simpl; try discriminate;
    destruct (line (t + TRIGGER_STABLE_MS)); simpl; try discriminate;
    intros _; apply Z.gtb_lt in E; repeat split; auto; lia.
Qed.

(* ------------------------------------------------------------------ *)
(** *** Lemmas on runs *)

Lemma det_states_0 (line : Z -> level) (d : DebState) (ts : list Z) :
  nth 0 (det_states line d ts) deb_init = d.
Proof. destruct ts; reflexivity. Qed.

Lemma det_states_S (line : Z -> level) (ts : list Z) (d : DebState) (k : nat) :
  (k < List.length ts)%nat ->
  nth (S k) (det_states line d ts) deb_init =
    fst (check_step line (nth k (det_states line d ts) deb_init) (nth k ts 0)).
Proof.
  revert d k; induction ts as [|t ts IH]; intros d k Hk; simpl in Hk; [lia|].
  destruct k as [|k]; simpl.
  - apply det_states_0.
  - apply IH; lia.
Qed.

Lemma run_det_nth (line : Z -> level) (ts : list Z) (d : DebState) (k : nat) :
  nth k (run_det line d ts) false = true ->
  (k < List.length ts)%nat /\
  snd (check_step line (nth k (det_states line d ts) deb_init) (nth k ts 0)) = true.
Proof.
  revert d k; induction ts as [|t ts IH]; intros d k H; simpl in *.
  - destruct k; discriminate.
  - destruct k as [|k]; simpl.
    + split; [lia|]; exact H.
    + destruct (IH _ _ H) as [H1 H2]; split; [lia | exact H2].
Qed.

Lemma times_sorted_nth (ts : list Z) (i j : nat) :
  times_sorted ts = true -> (i <= j)%nat -> (j < List.length ts)%nat ->
  nth i ts 0 <= nth j ts 0.
Proof.
  revert i j; induction ts as [|s ss IH]; intros i j Hs Hij Hj; simpl in Hj; [lia|].
  assert (Hs' : times_sorted ss = true).
  { destruct ss as [|s2 ss]; [reflexivity|].
    simpl in Hs; apply andb_true_iff in Hs; tauto. }
  destruct i as [|i], j as [|j]; simpl; try lia.
  - destruct ss as [|s2 ss]; simpl in Hj; [lia|].
    simpl in Hs; apply andb_true_iff in Hs as [H1 _]; apply Z.leb_le in H1.
    assert (Hj2 : (j < List.length (s2 :: ss))%nat) by (simpl; lia).
    specialize (IH 0%nat j Hs' (Nat.le_0_l j) Hj2); cbn [nth] in IH |- *; lia.
  - apply IH; auto; lia.
Qed.

Lemma first_reopen (f : nat -> level) (a b : nat) :
  (a <= b)%nat -> f a = LOW -> f b = HIGH ->
  exists m, (a <= m < b)%nat /\ f m = LOW /\ f (S m) = HIGH.
Proof.
  induction b as [|b IH]; intros Hab Ha Hb.
  - assert (a = 0%nat) by lia; subst; congruence.
  - destruct (Nat.eq_dec a (S b)) as [->|Hne]; [congruence|].
    destruct (f b) eqn:Eb.
    + exists b; split; [lia|]; auto.
    + destruct (IH ltac:(lia) Ha eq_refl) as (m & Hm & H1 & H2).
      exists m; split; [lia|]; auto.
Qed.

(* ------------------------------------------------------------------ *)
(** *** Invariants of a run from the initial state *)

Section DebounceRun.

Variable line : Z -> level.
Variable ss : list Z.
Hypothesis Hsorted : times_sorted ss = true.

Definition tm (m : nat) : Z := nth m ss 0.
Definition rd (m : nat) : level := line (tm m).
Definition dst (n : nat) : DebState := nth n (det_states line deb_init ss) deb_init.
Definition prev_read (n : nat) : level := match n with O => HIGH | S p => rd p end.

Lemma dst_S (n : nat) :
  (n < List.length ss)%nat -> dst (S n) = fst (check_step line (dst n) (tm n)).
Proof. apply det_states_S. Qed.

Lemma inv_lastReedState (n : nat) :
  (n <= List.length ss)%nat -> lastReedState (dst n) = prev_read n.
Proof.
  induction n as [|n IH]; intros Hn.
  - unfold dst; rewrite det_states_0; reflexivity.
  - rewrite dst_S by lia; apply check_step_lastReedState.
Qed.

Lemma inv_lastDebounceTime (n : nat) :
  (n <= List.length ss)%nat ->
  (lastDebounceTime (dst n) = 0 /\ forall m, (m < n)%nat -> rd m = HIGH) \/
  (exists j, (j < n)%nat /\ lastDebounceTime (dst n) = millis (tm j) /\
             forall m, (j <= m < n)%nat -> rd m = rd j).
Proof.
  induction n as [|n IH]; intros Hn.
  - left; unfold dst; rewrite det_states_0; split; [reflexivity | intros; lia].
  - rewrite dst_S by lia; rewrite check_step_lastDebounceTime.
    rewrite inv_lastReedState by lia.
    destruct (level_eqb (line (tm n)) (prev_read n)) eqn:E.
    + apply level_eqb_iff in E; fold (rd n) in E.
      destruct (IH ltac:(lia)) as [[H0 Hall] | (j & Hj & Hl & Hc)].
      * left; split; [exact H0|]; intros m Hm.
        destruct (Nat.eq_dec m n) as [->|]; [|apply Hall; lia].
        rewrite E; destruct n; simpl; [reflexivity | apply Hall; lia].
      * right; exists j; split; [lia|]; split; [exact Hl|].
        intros m Hm; destruct (Nat.eq_dec m n) as [->|]; [|apply Hc; lia].
        rewrite E; destruct n as [|p]; [lia|]; simpl; apply Hc; lia.
    + right; exists n; split; [lia|]; split; [reflexivity|].
      intros m Hm; replace m with n by lia; reflexivity.
Qed.

Lemma span_of_u32_sub (i j : nat) :
  (i <= j)%nat -> (j < List.length ss)%nat ->
  u32_sub (millis (tm j)) (millis (tm i)) > DEBOUNCE_MS -> tm j - tm i > DEBOUNCE_MS.
Proof.
  intros Hij Hj H.
  pose proof (times_sorted_nth ss i j Hsorted Hij Hj) as Hle; fold (tm i) (tm j) in Hle.
  unfold u32_sub, millis in H; rewrite <- Zminus_mod in H.
  pose proof (Z.mod_le (tm j - tm i) two32 ltac:(lia) ltac:(unfold two32; lia)).
  lia.
Qed.

Lemma signal_facts (k : nat) :
  nth k (run_det line deb_init ss) false = true ->
  (k < List.length ss)%nat /\ rd k = LOW /\ line (tm k + TRIGGER_STABLE_MS) = LOW /\
  reedState (dst k) = HIGH /\ reedState (dst (S k)) = LOW /\
  exists j, (j < k)%nat /\ (forall m, (j <= m <= k)%nat -> rd m = LOW) /\
            tm k - tm j > DEBOUNCE_MS.
Proof.
  intros H; destruct (run_det_nth line ss deb_init k H) as [Hk Hs]; fold (tm k) (dst k) in Hs.
  destruct (check_step_signal _ _ _ Hs) as (Hr & Hrr & Hlrs & Hrs & Hd & Hrs').
  split; [exact Hk|]; split; [exact Hr|]; split; [exact Hrr|]; split; [exact Hrs|].
  split; [rewrite dst_S by exact Hk; exact Hrs'|].
  rewrite inv_lastReedState in Hlrs by lia.
  destruct k as [|p]; [discriminate|]; simpl in Hlrs.
  destruct (inv_lastDebounceTime (S p) ltac:(lia)) as [[_ Hall] | (j & Hj & Hl & Hc)].
  - rewrite Hall in Hlrs by lia; discriminate.
  - exists j; split; [exact Hj|]; split.
    + intros m Hm; destruct (Nat.eq_dec m (S p)) as [->|]; [exact Hr|].
      rewrite Hc by lia; rewrite <- (Hc p) by lia; exact Hlrs.
    + rewrite Hl in Hd; apply span_of_u32_sub; [lia | exact Hk | exact Hd].
Qed.

End DebounceRun.

(** C8: for any reed line and any time-ordered sequence of calls of
    [checkTrapTriggered] (from the initial globals), (1) a call at time [t]
    that signals read the line closed (LOW), read it closed again at
    [t + TRIGGER_STABLE_MS], after the stability wait, and the line had read
    closed at every call since an earlier call more than [DEBOUNCE_MS] before;
    (2) between two signalling calls there is a run of
    calls that all read the line open (HIGH) spanning more than
    [DEBOUNCE_MS], so no closed phase shorter than a full debounced
    open-then-closed cycle produces a second signal. *)
Theorem C8_debounce_signals (line : Z -> level) (ss : list Z)
    (Hsorted : times_sorted ss = true) :
  let outs := run_det line deb_init ss in
  (forall k, nth k outs false = true ->
     rd line ss k = LOW /\ line (tm ss k + TRIGGER_STABLE_MS) = LOW /\
     exists j, (j < k)%nat /\ (forall m, (j <= m <= k)%nat -> rd line ss m = LOW) /\
               tm ss k - tm ss j > DEBOUNCE_MS) /\
  (forall k1 k2, (k1 < k2)%nat -> nth k1 outs false = true -> nth k2 outs false = true ->
     exists i j, (k1 < i)%nat /\ (i < j)%nat /\ (j < k2)%nat /\
       (forall m, (i <= m <= j)%nat -> rd line ss m = HIGH) /\
       tm ss j - tm ss i > DEBOUNCE_MS).
Proof.
  cbv zeta; split.
  - intros k H; destruct (signal_facts line ss Hsorted k H) as (_ & Hr & Hrr & _ & _ & Hj).
    split; [exact Hr|]; split; [exact Hrr | exact Hj].
  - intros k1 k2 Hlt H1 H2.
    destruct (signal_facts line ss Hsorted k1 H1) as (Hk1 & Hr1 & _ & _ & Hlow & _).
    destruct (signal_facts line ss Hsorted k2 H2) as (Hk2 & _ & _ & Hhigh & _).
    destruct (first_reopen (fun n => reedState (dst line ss n)) (S k1) k2 ltac:(lia) Hlow Hhigh)
      as (m & Hm & Hml & Hmh).
    rewrite dst_S in Hmh by lia.
    destruct (check_step_reopen _ _ _ Hml Hmh) as (Hrm & Hlrs & Hd).
    change (line (tm ss m)) with (rd line ss m) in Hrm.
    rewrite inv_lastReedState in Hlrs by lia.
    destruct m as [|p]; [lia|]; simpl in Hlrs.
    destruct (inv_lastDebounceTime line ss (S p) ltac:(lia)) as [[_ Hall] | (j & Hj & Hl & Hc)].
    + rewrite Hall in Hr1 by lia; discriminate.
    + assert (Hjk : (k1 < j)%nat).
      { destruct (Nat.lt_ge_cases k1 j) as [|Hge]; auto; exfalso.
        rewrite Hc in Hr1 by lia; rewrite <- (Hc p) in Hr1 by lia; congruence. }
      exists j, (S p); split; [exact Hjk|]; split; [lia|]; split; [lia|]; split.
      * intros m' Hm'; destruct (Nat.eq_dec m' (S p)) as [->|]; [exact Hrm|].
        rewrite Hc by lia; rewrite <- (Hc p) by lia; exact Hlrs.
      * rewrite Hl in Hd; apply span_of_u32_sub; [exact Hsorted | lia | lia | exact Hd].
Qed.

(* ================================================================== *)
(** ** Witnesses: the claims' hypotheses hold on concrete inputs *)

Definition sample_msg : TrapMessage := mkTrapMessage 1 1 5 1081530941 0 123456.
Definition sample_mac : list Z := [36; 10; 196; 18; 52; 86].

Lemma sample_msg_wf : msg_wf sample_msg.
Proof. unfold msg_wf, sample_msg, two32; simpl; lia. Qed.

Lemma C2_witness :
  msg_wf sample_msg /\
  decode (encode [] sample_msg) = Some sample_msg /\
  Z.of_nat (List.length (encode [] sample_msg)) = sizeof_TrapMessage /\
  (Z.of_nat (List.length [1; 2; 3]) <> sizeof_TrapMessage -> decode [1; 2; 3] = None).
Proof.
  split; [exact sample_msg_wf|].
  exact (C2_codec_roundtrip [] sample_msg [1; 2; 3] sample_msg_wf).
Defined.

Lemma C3_witness :
  let st := mkGwState true [] 0 0 in
  connected st = true /\ msg_wf sample_msg /\ event_type sample_msg <= 2 /\
  exists name doc,
    snd (onDataReceive st sample_mac (encode [] sample_msg) 77 true) =
      [Publish (mqtt_topic_prefix ++ decimal (node_id sample_msg) ++ "/" ++ name) doc] /\
    mqtt_topic_prefix = "trap/" /\
    In name ["status"; "trigger"; "low_battery"] /\
    name = event_type_str (event_type sample_msg) /\
    In ("node_id", JUInt (node_id sample_msg)) doc /\
    In ("event_type", JUInt (event_type sample_msg)) doc /\
    In ("event_type_str", JStr name) doc /\
    In ("trap_count", JUInt (trap_count sample_msg)) doc /\
    In ("battery_voltage", JFloat (battery_voltage sample_msg)) doc /\
    In ("route_hops", JUInt (route_hops sample_msg)) doc /\
    In ("timestamp", JUInt (timestamp sample_msg)) doc /\
    In ("gateway_time", JUInt 77) doc /\
    In ("mac_address", JStr (mac_string sample_mac)) doc.
Proof.
  cbv zeta.
  assert (He : event_type sample_msg <= 2) by (simpl; lia).
  split; [reflexivity|]; split; [exact sample_msg_wf|]; split; [exact He|].
  exact (C3_connected_single_publish (mkGwState true [] 0 0) sample_mac [] sample_msg
           77 true eq_refl sample_msg_wf He).
Defined.

Lemma C4_witness :
  let st := mkGwState false [false; true] 0 0 in
  let data := encode [] sample_msg in
  connected st = false /\ decode data = Some sample_msg /\
  (let r := onDataReceive st sample_mac data 77 true in
   messagesReceived (fst r) = u32_incr (messagesReceived st) /\
   ((forall i, (i < 5)%nat -> nth i (conn_results st) false = false) ->
      snd r = List.concat (List.repeat fail_round 5) /\
      messagesForwarded (fst r) = messagesForwarded st /\ connected (fst r) = false) /\
   (forall i, (i < 5)%nat ->
      (forall j, (j < i)%nat -> nth j (conn_results st) false = false) ->
      nth i (conn_results st) false = true ->
      snd r = (List.concat (List.repeat fail_round i) ++ online_round
               ++ [Publish (forward_topic sample_msg) (forward_doc sample_msg sample_mac 77)])%list /\
      messagesForwarded (fst r) =
        if true then u32_incr (messagesForwarded st) else messagesForwarded st)).
Proof.
  cbv zeta.
  assert (Hm : decode (encode [] sample_msg) = Some sample_msg) by reflexivity.
  split; [reflexivity|]; split; [exact Hm|].
  exact (C4_disconnected_receive (mkGwState false [false; true] 0 0) sample_mac
           (encode [] sample_msg) sample_msg 77 true eq_refl Hm).
Defined.

Lemma C5_witness :
  let st := mkGwState true [] 0 0 in
  let bad := mkTrapMessage 1 7 5 1081530941 0 123456 in
  Z.of_nat (List.length [1; 2; 3]) <> sizeof_TrapMessage /\
  onDataReceive st sample_mac [1; 2; 3] 0 true =
    (mkGwState (connected st) (conn_results st)
       (u32_incr (messagesReceived st)) (messagesForwarded st), []) /\
  connected st = true /\ msg_wf bad /\ 3 <= event_type bad /\
  snd (onDataReceive st sample_mac (encode [] bad) 0 true) =
    [Publish (mqtt_topic_prefix ++ decimal (node_id bad) ++ "/unknown")
       (forward_doc bad sample_mac 0)].
Proof.
  cbv zeta.
  assert (Hl : Z.of_nat (List.length [1; 2; 3]) <> sizeof_TrapMessage) by (vm_compute; discriminate).
  assert (Hwf : msg_wf (mkTrapMessage 1 7 5 1081530941 0 123456))
    by (unfold msg_wf, two32; simpl; lia).
  assert (He : 3 <= event_type (mkTrapMessage 1 7 5 1081530941 0 123456)) by (simpl; lia).
  destruct (C5_malformed_frames (mkGwState true [] 0 0) sample_mac [1; 2; 3] []
              (mkTrapMessage 1 7 5 1081530941 0 123456) 0 true) as [A B].
  split; [exact Hl|]; split; [exact (A Hl)|].
  split; [reflexivity|]; split; [exact Hwf|]; split; [exact He|].
  exact (B eq_refl Hwf He).
Defined.

Definition c6_wakes : list node_event :=
  [Wake ESP_SLEEP_WAKEUP_UNDEFINED (Qmake 4 1) 0 ESP_OK ESP_OK;
   Wake ESP_SLEEP_WAKEUP_EXT0 (Qmake 4 1) 900 ESP_OK ESP_OK;
   Wake ESP_SLEEP_WAKEUP_TIMER (Qmake 4 1) 300 ESP_OK ESP_OK].

Lemma C6_witness :
  forallb wake_ok c6_wakes = true /\ 0 <= trapCount rtc_power_on /\
  trapCount rtc_power_on + count_ext0 c6_wakes < two32 /\
  (trapCount (fst (run_node rtc_power_on c6_wakes)) = trapCount rtc_power_on + count_ext0 c6_wakes /\
   trapCount rtc_power_on <= trapCount (fst (run_node rtc_power_on c6_wakes)) /\
   (forall st' c v now,
      trapCount (fst (node_step st' (Wake c v now ESP_OK ESP_OK))) =
        if is_ext0 c then u32_incr (trapCount st') else trapCount st') /\
   (forall st' c v now i p, i <> ESP_OK \/ p <> ESP_OK ->
      trapCount (fst (node_step st' (Wake c v now i p))) = 0) /\
   (forall st', trapCount (fst (node_step st' PowerLoss)) = 0)).
Proof.
  assert (Hok : forallb wake_ok c6_wakes = true) by reflexivity.
  assert (H0 : 0 <= trapCount rtc_power_on) by (simpl; lia).
  assert (Hw : trapCount rtc_power_on + count_ext0 c6_wakes < two32)
    by (vm_compute; reflexivity).
  split; [exact Hok|]; split; [exact H0|]; split; [exact Hw|].
  exact (C6_trap_count rtc_power_on _ Hok H0 Hw).
Defined.

Lemma C7_witness :
  let st := mkRtcState 0 20 0 in
  let v := Qmake 31 10 in
  wakeCount st mod BATTERY_CHECK_INTERVAL = 0 /\ (v < LOW_BATTERY_THRESHOLD)%Q /\
  (let sent := snd (setup_cycle st ESP_SLEEP_WAKEUP_TIMER v 0 ESP_OK ESP_OK) in
   ((In 0 sent \/ In 2 sent) ->
      wakeCount st mod BATTERY_CHECK_INTERVAL = 0 /\ ESP_OK = ESP_OK /\ ESP_OK = ESP_OK) /\
   (ESP_OK = ESP_OK -> ESP_OK = ESP_OK ->
      wakeCount st mod BATTERY_CHECK_INTERVAL = 0 -> (v < LOW_BATTERY_THRESHOLD)%Q ->
      sent = [2]) /\
   (ESP_OK = ESP_OK -> ESP_OK = ESP_OK ->
      wakeCount st mod BATTERY_CHECK_INTERVAL = 0 -> ~ (v < LOW_BATTERY_THRESHOLD)%Q ->
      sent = [0]) /\
   ~ (In 0 sent /\ In 2 sent) /\
   (ESP_OK <> ESP_OK \/ ESP_OK <> ESP_OK ->
      sent = [] /\ fst (setup_cycle st ESP_SLEEP_WAKEUP_TIMER v 0 ESP_OK ESP_OK) = rtc_power_on) /\
   (forall c, ESP_OK = ESP_OK -> ESP_OK = ESP_OK ->
      wakeCount (fst (setup_cycle st c v 0 ESP_OK ESP_OK)) = u32_incr (wakeCount st))).
Proof.
  cbv zeta.
  split; [reflexivity|]; split; [apply Qltb_iff; reflexivity|].
  exact (C7_timer_wake_messages (mkRtcState 0 20 0) (Qmake 31 10) 0 ESP_OK ESP_OK).
Defined.

(** A reed line closed from 100 ms to 450 ms and from 700 ms on. *)
Definition sample_line (t : Z) : level :=
  if ((100 <=? t) && (t <? 450)) || (700 <=? t) then LOW else HIGH.

Definition sample_times : list Z := [100; 200; 500; 600; 700; 800; 1200].

Lemma C8_witness :
  times_sorted sample_times = true /\
  (let outs := run_det sample_line deb_init sample_times in
   (forall k, nth k outs false = true ->
      rd sample_line sample_times k = LOW /\
      sample_line (tm sample_times k + TRIGGER_STABLE_MS) = LOW /\
      exists j, (j < k)%nat /\ (forall m, (j <= m <= k)%nat -> rd sample_line sample_times m = LOW) /\
                tm sample_times k - tm sample_times j > DEBOUNCE_MS) /\
   (forall k1 k2, (k1 < k2)%nat -> nth k1 outs false = true -> nth k2 outs false = true ->
      exists i j, (k1 < i)%nat /\ (i < j)%nat /\ (j < k2)%nat /\
        (forall m, (i <= m <= j)%nat -> rd sample_line sample_times m = HIGH) /\
        tm sample_times j - tm sample_times i > DEBOUNCE_MS)).
Proof.
  split; [reflexivity|].
  exact (C8_debounce_signals sample_line sample_times eq_refl).
Defined.

Lemma C9_witness :
  let st := mkGwState false [false; false; true] 0 0 in
  connected st = false /\
  (attempts_in (snd (reconnectMQTT st)) <= 5)%nat /\
  ((forall i, (i < 5)%nat -> nth i (conn_results st) false = false) ->
     snd (reconnectMQTT st) = List.concat (List.repeat [ConnectAttempt; Delay 5000] 5) /\
     connected (fst (reconnectMQTT st)) = false) /\
  (forall i, (i < 5)%nat ->
     (forall j, (j < i)%nat -> nth j (conn_results st) false = false) ->
     nth i (conn_results st) false = true ->
     snd (reconnectMQTT st) =
       (List.concat (List.repeat [ConnectAttempt; Delay 5000] i)
        ++ [ConnectAttempt; Publish gateway_status_topic [("status", JStr "online")]])%list /\
     connected (fst (reconnectMQTT st)) = true).
Proof.
  cbv zeta; split; [reflexivity|].
  exact (C9_reconnect_bounded (mkGwState false [false; false; true] 0 0) eq_refl).
Defined.

Lemma C10_witness :
  let st := mkRtcState 2 3 0 in
  wakeCount st mod BATTERY_CHECK_INTERVAL <> 0 /\
  snd (setup_cycle st ESP_SLEEP_WAKEUP_TIMER (Qmake 31 10) 0 ESP_OK ESP_OK) = [].
Proof.
  cbv zeta.
  assert (Hn : wakeCount (mkRtcState 2 3 0) mod BATTERY_CHECK_INTERVAL <> 0)
    by (vm_compute; discriminate).
  split; [exact Hn|].
  exact (C10_timer_wake_silent (mkRtcState 2 3 0) (Qmake 31 10) 0 ESP_OK ESP_OK Hn).
Defined.

(* ================================================================== *)
(** * Further code of the node and the gateway *)

(* ------------------------------------------------------------------ *)
(** ** Node: the message of [sendMessage], [loop], [blinkLED] *)

Definition NODE_ID : Z := 1.

(** The [TrapMessage] filled in by [sendMessage(eventType)]: [vbits] is the bit
    pattern of [readBatteryVoltage()], [now] the real time of [millis()]. *)
Definition build_message (eventType trapCount_v vbits now : Z) : TrapMessage :=
  mkTrapMessage NODE_ID eventType trapCount_v vbits 0 (millis now).

(** One pass of the node's [loop()] whose [checkTrapTriggered()] call starts
    at real time [t]:
    [if (checkTrapTriggered()) { trapCount++; ...; sendMessage(1); ... }]. *)
Definition loop_step (line : Z -> level) (st : RtcState) (d : DebState) (t : Z)
  : RtcState * DebState * list Z :=
  let (d', sig) := check_step line d t in
  if sig then
    (mkRtcState (u32_incr (trapCount st)) (wakeCount st) (lastTriggerTime st), d', [1])
  else (st, d', []).

Fixpoint run_loop (line : Z -> level) (st : RtcState) (d : DebState) (ts : list Z)
  : RtcState * list (list Z) :=
  match ts with
  | [] => (st, [])
  | t :: ts' =>
      let '(st1, d1, sent) := loop_step line st d t in
      let (st2, outs) := run_loop line st1 d1 ts' in
      (st2, sent :: outs)
  end.

Definition count_true (bs : list bool) : nat := List.length (filter (fun b => b) bs).

Definition LED_PIN : Z := 3.

Inductive pin_action :=
| PinWrite (pin : Z) (lvl : level)
| PinDelay (ms : Z).

(** [n] rounds of the loop body; [delay] takes a [uint32_t], so the [int]
    argument [delayMs] reaches it converted modulo 2^32. *)
Fixpoint blink_rep (n : nat) (delayMs : Z) : list pin_action :=
  match n with
  | O => []
  | S n' => PinWrite LED_PIN HIGH :: PinDelay (delayMs mod two32) :: PinWrite LED_PIN LOW
              :: PinDelay (delayMs mod two32) :: blink_rep n' delayMs
  end.

(** [blinkLED(times, delayMs)]: [for (int i = 0; i < times; i++) { ... }]. *)
Definition blinkLED (times delayMs : Z) : list pin_action :=
  blink_rep (Z.to_nat times) delayMs.

Definition pin_writes (acts : list pin_action) : list level :=
  flat_map (fun a => match a with PinWrite _ l => [l] | _ => [] end) acts.

Definition pin_delay_total (acts : list pin_action) : Z :=
  fold_right (fun a n => match a with PinDelay ms => ms + n | _ => n end) 0 acts.

(* ------------------------------------------------------------------ *)
(** ** Gateway: frame sequences, [publishGatewayStatus], the status timer of
    [loop], [setupWiFi] *)

Record rx_frame := mkRxFrame {
  rx_mac : list Z;
  rx_data : list Z;
  rx_now : Z;
  rx_pub_ok : bool
}.

(** [onDataReceive] on each received frame in turn. *)
Fixpoint run_gateway (st : GwState) (frames : list rx_frame) : GwState * list gw_action :=
  match frames with
  | [] => (st, [])
  | f :: fs =>
      let (st1, a1) := onDataReceive st (rx_mac f) (rx_data f) (rx_now f) (rx_pub_ok f) in
      let (st2, a2) := run_gateway st1 fs in
      (st2, (a1 ++ a2)%list)
  end.

Definition STATUS_INTERVAL : Z := 60000.

(** [publishGatewayStatus()]; [now] is [millis()], [rssi] is [WiFi.RSSI()],
    [heap] is [ESP.getFreeHeap()]. *)
Definition publishGatewayStatus (st : GwState) (now rssi heap : Z) : list gw_action :=
  if negb (connected st) then []
  else [Publish gateway_status_topic
          [("status", JStr "online"); ("uptime", JUInt (now / 1000));
           ("wifi_rssi", JInt rssi);
           ("messages_received", JUInt (messagesReceived st));
           ("messages_forwarded", JUInt (messagesForwarded st));
           ("free_heap", JUInt heap)]].

(** One pass of the periodic block of the gateway's [loop()]: the check reads
    [millis()] at real time [tk_t1] (also used for the uptime), the update
    [lastStatusUpdate = millis()] at [tk_t2]. *)
Record tick := mkTick {
  tk_state : GwState;
  tk_t1 : Z;
  tk_t2 : Z;
  tk_rssi : Z;
  tk_heap : Z
}.

Definition status_tick (last : Z) (k : tick) : Z * list gw_action :=
  if u32_sub (millis (tk_t1 k)) last >? STATUS_INTERVAL
  then (millis (tk_t2 k),
        publishGatewayStatus (tk_state k) (millis (tk_t1 k)) (tk_rssi k) (tk_heap k))
  else (last, []).

(** Real times of the ticks whose periodic block published. *)
Fixpoint status_times (last : Z) (ks : list tick) : list Z :=
  match ks with
  | [] => []
  | k :: ks' =>
      let (last', acts) := status_tick last k in
      match acts with
      | [] => status_times last' ks'
      | _ => tk_t1 k :: status_times last' ks'
      end
  end.

(** Ticks come in time order, each check before its update, from time [x]. *)
Fixpoint ticks_sorted_from (x : Z) (ks : list tick) : bool :=
  match ks with
  | [] => true
  | k :: ks' => (x <=? tk_t1 k) && (tk_t1 k <=? tk_t2 k) && ticks_sorted_from (tk_t2 k) ks'
  end.

(** Every time is more than [STATUS_INTERVAL] after the previous one (the
    first after [x]). *)
Fixpoint spaced (x : Z) (ts : list Z) : Prop :=
  match ts with
  | [] => True
  | t :: ts' => t - x > STATUS_INTERVAL /\ spaced t ts'
  end.

Inductive wifi_action :=
| WDelay (ms : Z)
| WToggleLed
| WLed (lvl : level).

(** [while (WiFi.status() != WL_CONNECTED && attempts < 30) { delay(500); toggle LED;
    attempts++; }]; [polls] are the successive answers of [WiFi.status() ==
    WL_CONNECTED] (an exhausted list answers false). *)
Fixpoint wifi_wait (fuel : nat) (attempts : Z) (polls : list bool)
  : list bool * list wifi_action :=
  let (ok, polls') := next_connect polls in
  if negb ok && (attempts <? 30) then
    match fuel with
    | O => (polls', [])
    | S f =>
        let (rest, acts) := wifi_wait f (attempts + 1) polls' in
        (rest, WDelay 500 :: WToggleLed :: acts)
    end
  else (polls', []).

(** [setupWiFi()] after [WiFi.begin]: the wait, then
    [if (WiFi.status() == WL_CONNECTED) LED HIGH else LED LOW]. *)
Definition setupWiFi (polls : list bool) : list wifi_action :=
  let (rest, acts) := wifi_wait 30 0 polls in
  (acts ++ [WLed (if fst (next_connect rest) then HIGH else LOW)])%list.

Definition wifi_delays (acts : list wifi_action) : nat :=
  List.length (filter (fun a => match a with WDelay _ => true | _ => false end) acts).

(* ------------------------------------------------------------------ *)
(** ** Lemmas about the further code *)

Lemma le32_of_le32 (b0 b1 b2 b3 : Z) :
  0 <= b0 < 256 -> 0 <= b1 < 256 -> 0 <= b2 < 256 -> 0 <= b3 < 256 ->
  le32 (of_le32 b0 b1 b2 b3) = [b0; b1; b2; b3].
Proof.
  intros H0 H1 H2 H3; unfold le32, of_le32.
  repeat f_equal; Z.to_euclidean_division_equations; lia.
Qed.

Lemma of_le32_range (b0 b1 b2 b3 : Z) :
  0 <= b0 < 256 -> 0 <= b1 < 256 -> 0 <= b2 < 256 -> 0 <= b3 < 256 ->
  0 <= of_le32 b0 b1 b2 b3 < two32.
Proof. unfold of_le32, two32; lia. Qed.

Lemma run_loop_step (line : Z -> level) (st : RtcState) (d : DebState) (t : Z) (ts : list Z) :
  run_loop line st d (t :: ts) =
  let '(st1, d1, sent) := loop_step line st d t in
  let (st2, outs) := run_loop line st1 d1 ts in (st2, sent :: outs).
Proof. reflexivity. Qed.

Lemma u32_incr_range (x : Z) : 0 <= u32_incr x < two32.
Proof. unfold u32_incr, two32; apply Z.mod_pos_bound; lia. Qed.

Lemma blink_rep_writes (n : nat) (d : Z) :
  pin_writes (blink_rep n d) = List.concat (List.repeat [HIGH; LOW] n).
Proof. induction n as [|n IH]; simpl; [reflexivity | rewrite IH; reflexivity]. Qed.

Lemma blink_rep_delay (n : nat) (d : Z) :
  pin_delay_total (blink_rep n d) = 2 * Z.of_nat n * (d mod two32).
Proof.
  induction n as [|n IH]; [reflexivity |].
  change (pin_delay_total (blink_rep (S n) d))
    with (d mod two32 + (d mod two32 + pin_delay_total (blink_rep n d))).
  rewrite IH; lia.
Qed.

(* ------------------------------------------------------------------ *)
(** ** Further properties of the node *)

(** X1: the [checkTrapTriggered()] call at the end of [setup()] runs on the
    freshly initialised globals ([lastDebounceTime = 0],
    [lastReedState = reedState = HIGH]) and never reports a trigger: a LOW
    reading is a change and restarts the debounce window, a HIGH one is no
    change of [reedState]. *)
Theorem X1_setup_check_never_signals (line : Z -> level) (t : Z) :
  snd (check_step line deb_init t) = false.
Proof.
  unfold check_step, deb_init; simpl.
  destruct (line t); simpl.
  - rewrite u32_sub_diag; reflexivity.
  - destruct (u32_sub (millis t) 0 >? DEBOUNCE_MS); reflexivity.
Qed.

(** X2: over any run of the node's [loop()], [trapCount] grows (modulo 2^32)
    by exactly the number of calls of [checkTrapTriggered()] that returned
    true, each such pass sends one trigger message and no other pass sends
    anything; [wakeCount] and [lastTriggerTime] are left alone. *)
Theorem X2_loop_counts (line : Z -> level) (st : RtcState) (d : DebState) (ss : list Z)
    (Hrange : 0 <= trapCount st < two32) :
  trapCount (fst (run_loop line st d ss))
    = (trapCount st + Z.of_nat (count_true (run_det line d ss))) mod two32 /\
  wakeCount (fst (run_loop line st d ss)) = wakeCount st /\
  lastTriggerTime (fst (run_loop line st d ss)) = lastTriggerTime st /\
  snd (run_loop line st d ss) = map (fun b : bool => if b then [1] else []) (run_det line d ss).
Proof.
  revert st d Hrange; induction ss as [|s ss IH]; intros st d Hrange.
  - simpl; rewrite Z.add_0_r, Z.mod_small by exact Hrange; auto.
  - rewrite run_loop_step; cbn [run_det]; unfold loop_step.
    destruct (check_step line d s) as [d1 sig] eqn:E; simpl.
    destruct sig.
    + pose proof (u32_incr_range (trapCount st)) as Hr.
      specialize (IH (mkRtcState (u32_incr (trapCount st)) (wakeCount st) (lastTriggerTime st)) d1 Hr).
      destruct (run_loop line _ d1 ss) as [st2 outs]; simpl in *.
      destruct IH as (H1 & H2 & H3 & H4).
      unfold count_true in *; simpl.
      repeat split; try congruence.
      rewrite H1; unfold u32_incr.
      rewrite Zplus_mod_idemp_l; f_equal; lia.
    + specialize (IH st d1 Hrange).
      destruct (run_loop line st d1 ss) as [st2 outs]; simpl in *.
      destruct IH as (H1 & H2 & H3 & H4).
      unfold count_true in *; simpl.
      repeat split; congruence.
Qed.

(** X3: [blinkLED(times, delayMs)] writes HIGH, LOW, HIGH, LOW, ... to the LED
    pin, [times] pairs, and waits [2 * max(times, 0) * (delayMs mod 2^32)] ms
    in total ([delay] takes a [uint32_t]); for [times > 0] the last write is
    LOW, so the LED is left off, and for [times <= 0] nothing is written and
    nothing waited for. *)
Theorem X3_blinkLED_shape (times delayMs : Z) :
  pin_writes (blinkLED times delayMs) = List.concat (List.repeat [HIGH; LOW] (Z.to_nat times)) /\
  pin_delay_total (blinkLED times delayMs) = 2 * Z.max 0 times * (delayMs mod two32) /\
  (0 < times -> last (pin_writes (blinkLED times delayMs)) HIGH = LOW) /\
  (times <= 0 -> blinkLED times delayMs = []).
Proof.
  unfold blinkLED; split; [apply blink_rep_writes |].
  split; [rewrite blink_rep_delay; f_equal; f_equal; lia |].
  split.
  - intros Ht; rewrite blink_rep_writes.
    destruct (Z.to_nat times) as [|n] eqn:En; [lia|].
    clear En; induction n as [|n IH]; [reflexivity|].
    change (last (HIGH :: LOW :: List.concat (List.repeat [HIGH; LOW] (S n))) HIGH = LOW).
    simpl in IH |- *; exact IH.
  - intros Ht; replace (Z.to_nat times) with 0%nat by lia; reflexivity.
Qed.

(* ------------------------------------------------------------------ *)
(** ** Further properties of the codec and the gateway *)

(** X4: the gateway accepts every 20-byte frame whatever its contents, the
    decoded message is well formed, and re-encoding it with the frame's own
    padding bytes gives the frame back. *)
Theorem X4_decode_any_frame (data : list Z)
    (Hlen : List.length data = 20%nat)
    (Hbytes : Forall (fun b => 0 <= b < 256) data) :
  exists m, decode data = Some m /\ msg_wf m /\
    encode [nth 2 data 0; nth 3 data 0; nth 13 data 0; nth 14 data 0; nth 15 data 0] m = data.
Proof.
  do 20 (destruct data as [|? data]; [discriminate Hlen |]).
  destruct data; [| discriminate Hlen].
  repeat match goal with H : Forall _ (_ :: _) |- _ => inversion H; subst; clear H end.
  eexists; split; [reflexivity |].
  split.
  - unfold msg_wf; simpl.
    repeat split; try lia; apply of_le32_range; assumption.
  - unfold encode; cbn [trap_count battery_voltage timestamp node_id event_type route_hops].
    rewrite !le32_of_le32 by assumption.
    reflexivity.
Qed.

(** Node ids of a [uint8_t]. *)
Definition byte_values : list Z := map Z.of_nat (seq 0 256).

Lemma in_byte_values (n : Z) : 0 <= n < 256 -> In n byte_values.
Proof.
  intros H; unfold byte_values; apply in_map_iff.
  exists (Z.to_nat n); split; [lia | apply in_seq; lia].
Qed.

Lemma byte_check (f : Z -> bool) (n : Z) :
  forallb f byte_values = true -> 0 <= n < 256 -> f n = true.
Proof. intros C H; rewrite forallb_forall in C; exact (C n (in_byte_values n H)). Qed.

(** Reading back the text produced by [%d] and [%02X] (proof devices). *)
Fixpoint parse_decimal (s : string) (acc : Z) : Z :=
  match s with
  | EmptyString => acc
  | String c s' => parse_decimal s' (10 * acc + (Z.of_nat (nat_of_ascii c) - 48))
  end.

Definition hex_val (c : ascii) : Z :=
  let k := Z.of_nat (nat_of_ascii c) in if k <? 65 then k - 48 else k - 55.

Definition parse_hex2 (s : string) : Z :=
  match s with
  | String a (String b _) => 16 * hex_val a + hex_val b
  | _ => 0
  end.

Fixpoint no_slash (s : string) : bool :=
  match s with
  | EmptyString => true
  | String c s' => negb (Ascii.eqb c "/"%char) && no_slash s'
  end.

Lemma decimal_parse_ok :
  forallb (fun n => (parse_decimal (decimal n) 0 =? n) && no_slash (decimal n)) byte_values = true.
Proof. vm_compute; reflexivity. Qed.

Lemma hex2_parse_ok : forallb (fun b => parse_hex2 (hex2 b) =? b) byte_values = true.
Proof. vm_compute; reflexivity. Qed.

Lemma topic_length_ok :
  forallb (fun n => forallb (fun name =>
    Nat.leb (String.length (mqtt_topic_prefix ++ decimal n ++ "/" ++ name)) 20)
    ["status"; "trigger"; "low_battery"; "unknown"]) byte_values = true.
Proof. vm_compute; reflexivity. Qed.

Lemma decimal_inj (a b : Z) : 0 <= a < 256 -> 0 <= b < 256 -> decimal a = decimal b -> a = b.
Proof.
  intros Ha Hb E.
  pose proof (byte_check _ a decimal_parse_ok Ha) as Ca.
  pose proof (byte_check _ b decimal_parse_ok Hb) as Cb.
  apply andb_true_iff in Ca as [Ca _]; apply andb_true_iff in Cb as [Cb _].
  apply Z.eqb_eq in Ca; apply Z.eqb_eq in Cb; congruence.
Qed.

Lemma decimal_no_slash (a : Z) : 0 <= a < 256 -> no_slash (decimal a) = true.
Proof.
  intros Ha; pose proof (byte_check _ a decimal_parse_ok Ha) as Ca.
  apply andb_true_iff in Ca as [_ Ca]; exact Ca.
Qed.

Lemma hex2_inj (a b : Z) : 0 <= a < 256 -> 0 <= b < 256 -> hex2 a = hex2 b -> a = b.
Proof.
  intros Ha Hb E.
  pose proof (byte_check _ a hex2_parse_ok Ha) as Ca.
  pose proof (byte_check _ b hex2_parse_ok Hb) as Cb.
  apply Z.eqb_eq in Ca; apply Z.eqb_eq in Cb; congruence.
Qed.

Lemma slash_cancel (d1 d2 t1 t2 : string) :
  no_slash d1 = true -> no_slash d2 = true ->
  d1 ++ String "/" t1 = d2 ++ String "/" t2 -> d1 = d2 /\ t1 = t2.
Proof.
  revert d2; induction d1 as [|c d1 IH]; intros d2 N1 N2 E; destruct d2 as [|c' d2];
    simpl in *.
  - injection E as E; auto.
  - injection E as <- _; discriminate N2.
  - injection E as -> _; discriminate N1.
  - apply andb_true_iff in N1 as [_ N1]; apply andb_true_iff in N2 as [_ N2].
    injection E as -> E.
    destruct (IH d2 N1 N2 E) as [-> ->]; auto.
Qed.

Lemma event_type_str_cases (e : Z) :
  In (event_type_str e) ["status"; "trigger"; "low_battery"; "unknown"].
Proof.
  unfold event_type_str.
  destruct (e =? 0); [simpl; auto |].
  destruct (e =? 1); [simpl; auto |].
  destruct (e =? 2); simpl; auto.
Qed.

Lemma event_type_str_inj (a b : Z) :
  0 <= a <= 2 -> 0 <= b <= 2 -> event_type_str a = event_type_str b -> a = b.
Proof.
  intros Ha Hb E.
  assert (a = 0 \/ a = 1 \/ a = 2) as [-> | [-> | ->]] by lia;
  assert (b = 0 \/ b = 1 \/ b = 2) as [-> | [-> | ->]] by lia;
  first [reflexivity | discriminate E].
Qed.

Lemma hex2_length (b : Z) : String.length (hex2 b) = 2%nat.
Proof. reflexivity. Qed.

Lemma append_cancel (s1 s2 t1 t2 : string) :
  String.length s1 = String.length s2 -> s1 ++ t1 = s2 ++ t2 -> s1 = s2 /\ t1 = t2.
Proof.
  revert s2; induction s1 as [|c s1 IH]; intros s2 Hl E; destruct s2 as [|c' s2];
    simpl in *; try discriminate; auto.
  injection E as -> E.
  destruct (IH s2 ltac:(lia) E) as [-> ->]; auto.
Qed.

Lemma hex2_app_inj (a b : Z) (t1 t2 : string) :
  0 <= a < 256 -> 0 <= b < 256 -> hex2 a ++ t1 = hex2 b ++ t2 -> a = b /\ t1 = t2.
Proof.
  intros Ha Hb E.
  destruct (append_cancel _ _ _ _ (eq_trans (hex2_length a) (eq_sym (hex2_length b))) E)
    as [E1 E2].
  split; [exact (hex2_inj a b Ha Hb E1) | exact E2].
Qed.

(** X5: a trigger wake of the node whose ESP-NOW initialisation and peer
    registration succeed sends one message, built by [sendMessage(1)] after
    [trapCount++]; whatever the padding bytes, a connected gateway that
    receives its frame publishes exactly one message, on the topic
    [trap/1/trigger], whose document carries node id 1, hop count 0 and the
    incremented trap count.  A trigger wake where either step fails sends
    nothing and restarts with the counters re-initialised. *)
Theorem X5_trigger_end_to_end (st : RtcState) (v : Q) (t_wake t_send vbits : Z)
    (pad mac : list Z) (gst : GwState) (now : Z) (pub_ok : bool)
    (Hv : 0 <= vbits < two32) (Hc : connected gst = true) :
  let st' := fst (setup_cycle st ESP_SLEEP_WAKEUP_EXT0 v t_wake ESP_OK ESP_OK) in
  let msg := build_message 1 (trapCount st') vbits t_send in
  snd (setup_cycle st ESP_SLEEP_WAKEUP_EXT0 v t_wake ESP_OK ESP_OK) = [1] /\
  trapCount st' = u32_incr (trapCount st) /\
  snd (onDataReceive gst mac (encode pad msg) now pub_ok)
    = [Publish "trap/1/trigger" (forward_doc msg mac now)] /\
  node_id msg = 1 /\ route_hops msg = 0 /\ trap_count msg = u32_incr (trapCount st) /\
  (forall i p, i <> ESP_OK \/ p <> ESP_OK ->
     setup_cycle st ESP_SLEEP_WAKEUP_EXT0 v t_wake i p = (rtc_power_on, [])).
Proof.
  cbv zeta.
  assert (Hwf : msg_wf (build_message 1
            (trapCount (fst (setup_cycle st ESP_SLEEP_WAKEUP_EXT0 v t_wake ESP_OK ESP_OK)))
            vbits t_send)).
  { unfold msg_wf, build_message, millis, NODE_ID; simpl.
    pose proof (u32_incr_range (trapCount st)).
    assert (0 <= t_send mod two32 < two32) by (apply Z.mod_pos_bound; unfold two32; lia).
    lia. }
  split; [reflexivity|]; split; [reflexivity|]; split.
  - unfold onDataReceive; rewrite decode_encode by exact Hwf.
    rewrite forward_connected by exact Hc.
    reflexivity.
  - split; [reflexivity|]; split; [reflexivity|]; split; [reflexivity|].
    intros i p H; exact (setup_cycle_fail st ESP_SLEEP_WAKEUP_EXT0 v t_wake i p H).
Qed.

(** X6: for well-formed messages with a named event type (0, 1 or 2), the
    MQTT topic [trap/<node_id>/<event>] determines the node id and the event
    type: different nodes or events never share a topic. *)
Theorem X6_topic_injective (m1 m2 : TrapMessage)
    (H1 : msg_wf m1) (H2 : msg_wf m2)
    (He1 : event_type m1 <= 2) (He2 : event_type m2 <= 2)
    (E : forward_topic m1 = forward_topic m2) :
  node_id m1 = node_id m2 /\ event_type m1 = event_type m2.
Proof.
  destruct H1 as (Hn1 & He1' & _), H2 as (Hn2 & He2' & _).
  unfold forward_topic, mqtt_topic_prefix in E; simpl in E.
  injection E as E.
  apply slash_cancel in E as [Ed En];
    [| apply decimal_no_slash; assumption | apply decimal_no_slash; assumption].
  split; [apply decimal_inj | apply event_type_str_inj]; auto; lia.
Qed.

(** X7: for any node id of a [uint8_t] and any event type, the topic has at
    most 20 characters, so [snprintf(topic, 64, ...)] never truncates it. *)
Theorem X7_topic_fits (m : TrapMessage) (Hn : 0 <= node_id m < 256) :
  (String.length (forward_topic m) <= 20)%nat.
Proof.
  pose proof (byte_check _ _ topic_length_ok Hn) as C.
  rewrite forallb_forall in C; specialize (C _ (event_type_str_cases (event_type m))).
  apply Nat.leb_le; exact C.
Qed.

(** X8: the [mac_address] string of the forwarded document identifies the
    sender: two 6-byte MAC addresses with the same [%02X:...] string are
    equal. *)
Theorem X8_mac_string_injective (m1 m2 : list Z)
    (L1 : List.length m1 = 6%nat) (L2 : List.length m2 = 6%nat)
    (B1 : Forall (fun b => 0 <= b < 256) m1) (B2 : Forall (fun b => 0 <= b < 256) m2)
    (E : mac_string m1 = mac_string m2) :
  m1 = m2.
Proof.
  do 6 (destruct m1 as [|? m1]; [discriminate L1 |]); destruct m1; [| discriminate L1].
  do 6 (destruct m2 as [|? m2]; [discriminate L2 |]); destruct m2; [| discriminate L2].
  repeat match goal with H : Forall _ (_ :: _) |- _ => inversion H; subst; clear H end.
  unfold mac_string in E; cbn [nth] in E.
  repeat match goal with
  | E : hex2 ?a ++ _ = hex2 ?b ++ _ |- _ =>
      let Ea := fresh "Ea" in
      apply hex2_app_inj in E as [Ea E]; [subst | assumption | assumption]
  | E : ":" ++ _ = ":" ++ _ |- _ => apply append_cancel in E as [_ E]; [| reflexivity]
  end.
  apply hex2_inj in E; [subst; reflexivity | assumption | assumption].
Qed.

Lemma onDataReceive_counters (st : GwState) (mac data : list Z) (now : Z) (ok : bool) :
  messagesReceived (fst (onDataReceive st mac data now ok)) = u32_incr (messagesReceived st) /\
  (messagesForwarded (fst (onDataReceive st mac data now ok)) = messagesForwarded st \/
   messagesForwarded (fst (onDataReceive st mac data now ok)) = u32_incr (messagesForwarded st)).
Proof.
  unfold onDataReceive.
  set (st1 := mkGwState (connected st) (conn_results st)
                (u32_incr (messagesReceived st)) (messagesForwarded st)).
  destruct (decode data) as [msg|]; [| simpl; auto].
  unfold forwardToMQTT.
  destruct (if negb (connected st1) then reconnectMQTT st1 else (st1, [])) as [st1' acts1] eqn:R.
  assert (Hc : messagesReceived st1' = messagesReceived st1 /\
               messagesForwarded st1' = messagesForwarded st1).
  { destruct (negb (connected st1)).
    - pose proof (reconnect_loop_counters 5 0 st1) as H.
      unfold reconnectMQTT in R; rewrite R in H; exact H.
    - injection R as <- _; auto. }
  destruct Hc as [Hr Hf].
  destruct (negb (connected st1')); simpl; [rewrite Hr, Hf; auto |].
  destruct ok; simpl; rewrite Hr, Hf; auto.
Qed.

Lemma u32_incr_small (x : Z) : 0 <= x -> x + 1 < two32 -> u32_incr x = x + 1.
Proof. intros H1 H2; unfold u32_incr; apply Z.mod_small; lia. Qed.

Lemma ticks_sorted_from_mono (x y : Z) (ks : list tick) :
  x <= y -> ticks_sorted_from y ks = true -> ticks_sorted_from x ks = true.
Proof.
  destruct ks as [|k ks]; simpl; auto.
  intros Hxy H; apply andb_true_iff in H as [H H3]; apply andb_true_iff in H as [H1 H2].
  apply Z.leb_le in H1; rewrite H2, H3, (proj2 (Z.leb_le x (tk_t1 k)) ltac:(lia)); reflexivity.
Qed.

Lemma u32_sub_millis (a b : Z) : u32_sub (millis a) (millis b) = (a - b) mod two32.
Proof. unfold u32_sub, millis; rewrite <- Zminus_mod; reflexivity. Qed.

Lemma status_times_spaced (ks : list tick) (x a : Z) :
  a <= x -> ticks_sorted_from x ks = true -> spaced a (status_times (millis x) ks).
Proof.
  revert x a; induction ks as [|k ks IH]; intros x a Hax Hs; simpl; auto.
  apply andb_true_iff in Hs as [Hs Hrest]; apply andb_true_iff in Hs as [H1 H2].
  apply Z.leb_le in H1; apply Z.leb_le in H2.
  unfold status_tick.
  destruct (u32_sub (millis (tk_t1 k)) (millis x) >? STATUS_INTERVAL) eqn:F.
  - apply Z.gtb_lt in F; rewrite u32_sub_millis in F.
    assert (Hm : (tk_t1 k - x) mod two32 <= tk_t1 k - x)
      by (apply Z.mod_le; unfold two32; lia).
    destruct (publishGatewayStatus _ _ _ _) as [|p ps].
    + apply IH; [lia | exact Hrest].
    + split; [unfold STATUS_INTERVAL in *; lia |].
      apply IH; [exact H2 | exact Hrest].
  - apply IH; [exact Hax |].
    apply (ticks_sorted_from_mono x (tk_t2 k)); [lia | exact Hrest].
Qed.

Lemma nth_skipn_0 (n : nat) (l : list bool) (d : bool) : nth 0 (skipn n l) d = nth n l d.
Proof.
  revert l; induction n as [|n IH]; intros l; [reflexivity |].
  destruct l; simpl; [reflexivity | apply IH].
Qed.

Lemma wifi_wait_shape (i : nat) :
  forall (polls : list bool) (a : Z) (fuel : nat),
  0 <= a -> a + Z.of_nat i <= 30 -> (i <= fuel)%nat ->
  (forall j, (j < i)%nat -> nth j polls false = false) ->
  (a + Z.of_nat i = 30 \/ nth i polls false = true) ->
  wifi_wait fuel a polls = (skipn (S i) polls, List.concat (List.repeat [WDelay 500; WToggleLed] i)).
Proof.
  induction i as [|i IH]; intros polls a fuel Ha Hai Hf Hj Hstop.
  - assert (E : fst (next_connect polls) = true \/ (a <? 30) = false).
    { destruct Hstop as [Hs | Hs]; [right; apply Z.ltb_ge; lia |].
      left; destruct polls; [discriminate Hs | exact Hs]. }
    destruct fuel; destruct polls as [|b r]; simpl in E |- *;
      destruct E as [E | E]; try discriminate; rewrite ?E; try reflexivity;
      destruct b; reflexivity.
  - destruct fuel as [|f]; [lia |].
    assert (Hlt : (a <? 30) = true) by (apply Z.ltb_lt; lia).
    assert (Hnext : forall j, (j < i)%nat -> nth j (tl polls) false = false).
    { intros j Hjl; destruct polls as [|b r]; [destruct j; reflexivity |].
      apply (Hj (S j)); lia. }
    assert (Hstop' : a + 1 + Z.of_nat i = 30 \/ nth i (tl polls) false = true).
    { destruct Hstop as [Hs | Hs]; [left; lia | right].
      destruct polls as [|b r]; [destruct i; discriminate Hs | exact Hs]. }
    specialize (IH (tl polls) (a + 1) f ltac:(lia) ltac:(lia) ltac:(lia) Hnext Hstop').
    destruct polls as [|b r].
    + simpl in IH |- *; rewrite Hlt, IH; reflexivity.
    + assert (Hb : b = false) by exact (Hj 0%nat ltac:(lia)); subst b.
      simpl in IH |- *; rewrite Hlt, IH; reflexivity.
Qed.

(** X9: over any sequence of received frames (without counter overflow),
    [messagesReceived] grows by exactly the number of frames, and
    [messagesForwarded] by at most that number, so it never catches up with
    [messagesReceived] by more than it started with; a call of
    [reconnectMQTT()] changes neither counter. *)
Theorem X9_gateway_counters (st : GwState) (frames : list rx_frame)
    (Hr : 0 <= messagesReceived st) (Hr' : messagesReceived st + Z.of_nat (List.length frames) < two32)
    (Hf : 0 <= messagesForwarded st) (Hf' : messagesForwarded st + Z.of_nat (List.length frames) < two32) :
  messagesReceived (fst (run_gateway st frames)) = messagesReceived st + Z.of_nat (List.length frames) /\
  messagesForwarded st <= messagesForwarded (fst (run_gateway st frames))
    <= messagesForwarded st + Z.of_nat (List.length frames) /\
  messagesForwarded (fst (run_gateway st frames)) - messagesForwarded st
    <= messagesReceived (fst (run_gateway st frames)) - messagesReceived st /\
  (forall st', messagesReceived (fst (reconnectMQTT st')) = messagesReceived st' /\
               messagesForwarded (fst (reconnectMQTT st')) = messagesForwarded st').
Proof.
  assert (Hrc : forall st', messagesReceived (fst (reconnectMQTT st')) = messagesReceived st' /\
                            messagesForwarded (fst (reconnectMQTT st')) = messagesForwarded st')
    by (intros st'; exact (reconnect_loop_counters 5 0 st')).
  cut (messagesReceived (fst (run_gateway st frames))
         = messagesReceived st + Z.of_nat (List.length frames) /\
       messagesForwarded st <= messagesForwarded (fst (run_gateway st frames))
         <= messagesForwarded st + Z.of_nat (List.length frames) /\
       messagesForwarded (fst (run_gateway st frames)) - messagesForwarded st
         <= messagesReceived (fst (run_gateway st frames)) - messagesReceived st);
    [intros (A & B & C); split; [exact A | split; [exact B | split; [exact C | exact Hrc]]] |].
  clear Hrc.
  revert st Hr Hr' Hf Hf'; induction frames as [|f fs IH]; intros st Hr Hr' Hf Hf'.
  - simpl; lia.
  - cbn [run_gateway].
    pose proof (onDataReceive_counters st (rx_mac f) (rx_data f) (rx_now f) (rx_pub_ok f)) as [C1 C2].
    destruct (onDataReceive st (rx_mac f) (rx_data f) (rx_now f) (rx_pub_ok f)) as [st1 a1].
    simpl in C1, C2.
    cbn [List.length] in Hr', Hf'.
    rewrite u32_incr_small in C1 by lia.
    assert (C2' : messagesForwarded st1 = messagesForwarded st \/
                  messagesForwarded st1 = messagesForwarded st + 1)
      by (destruct C2 as [C2 | C2]; [left | right; rewrite u32_incr_small in C2 by lia]; exact C2).
    specialize (IH st1 ltac:(lia) ltac:(lia) ltac:(lia) ltac:(lia)).
    destruct (run_gateway st1 fs) as [st2 a2]; simpl in *.
    cbn [List.length]; lia.
Qed.

(** X10: from boot ([lastStatusUpdate = 0]), the periodic block of the
    gateway's [loop()] publishes a status report only more than
    [STATUS_INTERVAL] = 60 s after the previous one (the first one more than
    60 s after boot), whatever the connection state, also across the
    wrap-around of [millis()]; a check that falls due while MQTT is
    disconnected publishes nothing but still restarts the interval. *)
Theorem X10_status_spaced (ks : list tick) (Hs : ticks_sorted_from 0 ks = true) :
  spaced 0 (status_times 0 ks) /\
  (forall last k, connected (tk_state k) = false ->
     u32_sub (millis (tk_t1 k)) last > STATUS_INTERVAL ->
     status_tick last k = (millis (tk_t2 k), [])).
Proof.
  split; [exact (status_times_spaced ks 0 0 (Z.le_refl 0) Hs) |].
  intros last k Hc Hd; unfold status_tick.
  rewrite (proj2 (Z.gtb_lt (u32_sub (millis (tk_t1 k)) last) STATUS_INTERVAL) ltac:(lia)).
  unfold publishGatewayStatus; rewrite Hc; reflexivity.
Qed.

(** X11: [setupWiFi()] waits 500 ms and toggles the LED once for each failed
    status poll, at most 30 times (15 s), stopping at the first poll that
    reports a connection; the LED is then set from one more status poll. *)
Theorem X11_setupWiFi_shape (polls : list bool) (i : nat) (Hi : (i <= 30)%nat)
    (Hfalse : forall j, (j < i)%nat -> nth j polls false = false)
    (Hstop : i = 30%nat \/ nth i polls false = true) :
  setupWiFi polls =
    (List.concat (List.repeat [WDelay 500; WToggleLed] i)
     ++ [WLed (if nth (S i) polls false then HIGH else LOW)])%list.
Proof.
  unfold setupWiFi.
  rewrite (wifi_wait_shape i polls 0 30 (Z.le_refl 0) ltac:(lia) Hi Hfalse
             ltac:(destruct Hstop as [-> | H]; [left; reflexivity | right; exact H])).
  f_equal; f_equal; f_equal.
  rewrite <- (nth_skipn_0 (S i) polls false).
  destruct (skipn (S i) polls); reflexivity.
Qed.

(** X12: in a run of wakes without power loss whose ESP-NOW initialisation
    and peer registration all succeed (and without overflow of [wakeCount]),
    wake number [k] sends the trigger message if it is an EXT0
    wake, and otherwise a status or low-battery message exactly when
    [wakeCount + k] is a multiple of 10: from power-on ([wakeCount = 0]) the
    periodic report falls on wakes 0, 10, 20, ... counting every wake. *)
Theorem X12_wake_schedule (st : RtcState) (evs : list node_event)
    (Hw : 0 <= wakeCount st) (Hn : wakeCount st + Z.of_nat (List.length evs) <= two32)
    (Hp : forallb wake_ok evs = true)
    (k : nat) (c : wakeup_cause) (v : Q) (t : Z)
    (Hk : nth_error evs k = Some (Wake c v t ESP_OK ESP_OK)) :
  nth k (snd (run_node st evs)) [] =
    if is_ext0 c then [1]
    else if (wakeCount st + Z.of_nat k) mod BATTERY_CHECK_INTERVAL =? 0 then
      (if Qltb v LOW_BATTERY_THRESHOLD then [2] else [0])
    else [].
Proof.
  revert st Hw Hn k Hk; induction evs as [|ev evs IH]; intros st Hw Hn k Hk;
    [destruct k; discriminate Hk |].
  cbn [forallb] in Hp; apply andb_true_iff in Hp as [Hev Hp].
  destruct (wake_ok_inv ev Hev) as (c0 & v0 & t0 & ->).
  cbn [run_node node_step].
  pose proof (setup_cycle_wakeCount st c0 v0 t0) as Hwc.
  destruct (setup_cycle st c0 v0 t0 ESP_OK ESP_OK) as [st1 sent] eqn:E.
  destruct k as [|k].
  - injection Hk as -> -> ->.
    destruct (run_node st1 evs) as [st2 outs]; simpl.
    unfold setup_cycle in E; simpl in E; rewrite Z.add_0_r.
    destruct (is_ext0 c); [injection E as _ <-; reflexivity |].
    destruct (wakeCount st mod BATTERY_CHECK_INTERVAL =? 0);
      [destruct (Qltb v _) |]; injection E as _ <-; reflexivity.
  - simpl in Hk.
    assert (Hlen : (k < List.length evs)%nat) by (apply nth_error_Some; congruence).
    simpl in Hwc; cbn [List.length] in Hn.
    rewrite u32_incr_small in Hwc by lia.
    specialize (IH Hp st1 ltac:(lia) ltac:(lia) k Hk).
    destruct (run_node st1 evs) as [st2 outs]; simpl in *.
    rewrite IH, Hwc.
    replace (wakeCount st + 1 + Z.of_nat k) with (wakeCount st + Z.of_nat (S k)) by lia.
    reflexivity.
Qed.

(* ------------------------------------------------------------------ *)
(** ** Witnesses for the further properties *)

(** A closing at 1000 ms, a reopening at 1150 ms and a second closing at
    6300 ms; the calls of [loop()] come at [loop_times]. *)
Definition loop_line (t : Z) : level :=
  if ((1000 <=? t) && (t <? 1150)) || (6300 <=? t) then LOW else HIGH.

Definition loop_times : list Z := [1000; 1100; 1150; 1250; 6300; 6400].

Lemma X2_witness :
  0 <= trapCount (mkRtcState 7 3 0) < two32 /\
  trapCount (fst (run_loop loop_line (mkRtcState 7 3 0) deb_init loop_times))
    = (trapCount (mkRtcState 7 3 0)
       + Z.of_nat (count_true (run_det loop_line deb_init loop_times))) mod two32 /\
  wakeCount (fst (run_loop loop_line (mkRtcState 7 3 0) deb_init loop_times))
    = wakeCount (mkRtcState 7 3 0) /\
  lastTriggerTime (fst (run_loop loop_line (mkRtcState 7 3 0) deb_init loop_times))
    = lastTriggerTime (mkRtcState 7 3 0) /\
  snd (run_loop loop_line (mkRtcState 7 3 0) deb_init loop_times)
    = map (fun b : bool => if b then [1] else []) (run_det loop_line deb_init loop_times).
Proof.
  assert (H : 0 <= trapCount (mkRtcState 7 3 0) < two32) by (unfold two32; simpl; lia).
  split; [exact H | exact (X2_loop_counts loop_line (mkRtcState 7 3 0) deb_init loop_times H)].
Defined.

(** The frame of [sample_msg] with nonzero padding bytes. *)
Definition sample_frame : list Z :=
  [1; 1; 170; 85; 5; 0; 0; 0; 61; 10; 119; 64; 0; 238; 238; 238; 64; 226; 1; 0].

Lemma X4_witness :
  List.length sample_frame = 20%nat /\ Forall (fun b => 0 <= b < 256) sample_frame /\
  exists m, decode sample_frame = Some m /\ msg_wf m /\
    encode [nth 2 sample_frame 0; nth 3 sample_frame 0; nth 13 sample_frame 0;
            nth 14 sample_frame 0; nth 15 sample_frame 0] m = sample_frame.
Proof.
  assert (H1 : List.length sample_frame = 20%nat) by reflexivity.
  assert (H2 : Forall (fun b => 0 <= b < 256) sample_frame)
    by (unfold sample_frame; repeat constructor; lia).
  split; [exact H1 | split; [exact H2 | exact (X4_decode_any_frame sample_frame H1 H2)]].
Defined.

Definition online_gw : GwState := mkGwState true [] 0 0.

Lemma X5_witness :
  0 <= 1081530941 < two32 /\ connected online_gw = true /\
  (let st' := fst (setup_cycle (mkRtcState 4 9 0) ESP_SLEEP_WAKEUP_EXT0 (inject_Z 4) 2000
                     ESP_OK ESP_OK) in
   let msg := build_message 1 (trapCount st') 1081530941 2150 in
   snd (setup_cycle (mkRtcState 4 9 0) ESP_SLEEP_WAKEUP_EXT0 (inject_Z 4) 2000 ESP_OK ESP_OK)
     = [1] /\
   trapCount st' = u32_incr (trapCount (mkRtcState 4 9 0)) /\
   snd (onDataReceive online_gw sample_mac (encode [9; 9; 9; 9; 9] msg) 50000 true)
     = [Publish "trap/1/trigger" (forward_doc msg sample_mac 50000)] /\
   node_id msg = 1 /\ route_hops msg = 0 /\
   trap_count msg = u32_incr (trapCount (mkRtcState 4 9 0)) /\
   (forall i p, i <> ESP_OK \/ p <> ESP_OK ->
      setup_cycle (mkRtcState 4 9 0) ESP_SLEEP_WAKEUP_EXT0 (inject_Z 4) 2000 i p
        = (rtc_power_on, []))).
Proof.
  assert (Hv : 0 <= 1081530941 < two32) by (unfold two32; lia).
  assert (Hc : connected online_gw = true) by reflexivity.
  split; [exact Hv | split; [exact Hc |]].
  exact (X5_trigger_end_to_end (mkRtcState 4 9 0) (inject_Z 4) 2000 2150 1081530941
           [9; 9; 9; 9; 9] sample_mac online_gw 50000 true Hv Hc).
Defined.

Definition other_msg : TrapMessage := mkTrapMessage 1 1 9 1077936128 0 777.

Lemma X6_witness :
  msg_wf sample_msg /\ msg_wf other_msg /\ event_type sample_msg <= 2 /\
  event_type other_msg <= 2 /\ forward_topic sample_msg = forward_topic other_msg /\
  node_id sample_msg = node_id other_msg /\ event_type sample_msg = event_type other_msg.
Proof.
  assert (H1 : msg_wf sample_msg) by (unfold msg_wf, sample_msg, two32; simpl; lia).
  assert (H2 : msg_wf other_msg) by (unfold msg_wf, other_msg, two32; simpl; lia).
  assert (He1 : event_type sample_msg <= 2) by (simpl; lia).
  assert (He2 : event_type other_msg <= 2) by (simpl; lia).
  assert (E : forward_topic sample_msg = forward_topic other_msg) by reflexivity.
  split; [exact H1 | split; [exact H2 | split; [exact He1 | split; [exact He2 |]]]].
  split; [exact E | exact (X6_topic_injective sample_msg other_msg H1 H2 He1 He2 E)].
Defined.

Lemma X7_witness :
  0 <= node_id (mkTrapMessage 255 7 0 0 0 0) < 256 /\
  (String.length (forward_topic (mkTrapMessage 255 7 0 0 0 0)) <= 20)%nat.
Proof.
  assert (H : 0 <= node_id (mkTrapMessage 255 7 0 0 0 0) < 256) by (simpl; lia).
  split; [exact H | exact (X7_topic_fits _ H)].
Defined.

Lemma X8_witness :
  List.length sample_mac = 6%nat /\ Forall (fun b => 0 <= b < 256) sample_mac /\
  mac_string sample_mac = mac_string [36; 10; 196; 18; 52; 86] /\
  sample_mac = [36; 10; 196; 18; 52; 86].
Proof.
  assert (L : List.length sample_mac = 6%nat) by reflexivity.
  assert (B : Forall (fun b => 0 <= b < 256) sample_mac)
    by (unfold sample_mac; repeat constructor; lia).
  assert (E : mac_string sample_mac = mac_string [36; 10; 196; 18; 52; 86]) by reflexivity.
  split; [exact L | split; [exact B | split; [exact E |]]].
  exact (X8_mac_string_injective sample_mac [36; 10; 196; 18; 52; 86] L L B B E).
Defined.

Definition sample_frames : list rx_frame :=
  [mkRxFrame sample_mac (encode [0; 0; 0; 0; 0] sample_msg) 10 true;
   mkRxFrame sample_mac [1; 2; 3] 20 true;
   mkRxFrame sample_mac sample_frame 30 false].

Lemma X9_witness :
  (let st := mkGwState false [false; true] 5 2 in
   0 <= messagesReceived st /\
   messagesReceived st + Z.of_nat (List.length sample_frames) < two32 /\
   0 <= messagesForwarded st /\
   messagesForwarded st + Z.of_nat (List.length sample_frames) < two32 /\
   messagesReceived (fst (run_gateway st sample_frames))
     = messagesReceived st + Z.of_nat (List.length sample_frames) /\
   messagesForwarded st <= messagesForwarded (fst (run_gateway st sample_frames))
     <= messagesForwarded st + Z.of_nat (List.length sample_frames) /\
   messagesForwarded (fst (run_gateway st sample_frames)) - messagesForwarded st
     <= messagesReceived (fst (run_gateway st sample_frames)) - messagesReceived st /\
   (forall st', messagesReceived (fst (reconnectMQTT st')) = messagesReceived st' /\
                messagesForwarded (fst (reconnectMQTT st')) = messagesForwarded st')).
Proof.
  cbv zeta.
  assert (H1 : 0 <= messagesReceived (mkGwState false [false; true] 5 2)) by (simpl; lia).
  assert (H2 : messagesReceived (mkGwState false [false; true] 5 2)
               + Z.of_nat (List.length sample_frames) < two32) by (unfold two32; simpl; lia).
  assert (H3 : 0 <= messagesForwarded (mkGwState false [false; true] 5 2)) by (simpl; lia).
  assert (H4 : messagesForwarded (mkGwState false [false; true] 5 2)
               + Z.of_nat (List.length sample_frames) < two32) by (unfold two32; simpl; lia).
  split; [exact H1 | split; [exact H2 | split; [exact H3 | split; [exact H4 |]]]].
  exact (X9_gateway_counters _ sample_frames H1 H2 H3 H4).
Defined.

(** Status checks at 30 s, 61 s, 100 s, 122 s and 200 s; the broker is down
    at 122 s. *)
Definition sample_ticks : list tick :=
  [mkTick online_gw 30000 30000 (-60) 200000;
   mkTick online_gw 61000 61002 (-60) 200000;
   mkTick online_gw 100000 100000 (-61) 199000;
   mkTick (mkGwState false [] 0 0) 122000 122001 (-61) 199000;
   mkTick online_gw 200000 200003 (-59) 198000].

Lemma X10_witness :
  ticks_sorted_from 0 sample_ticks = true /\
  (spaced 0 (status_times 0 sample_ticks) /\
   (forall last k, connected (tk_state k) = false ->
      u32_sub (millis (tk_t1 k)) last > STATUS_INTERVAL ->
      status_tick last k = (millis (tk_t2 k), []))).
Proof.
  assert (H : ticks_sorted_from 0 sample_ticks = true) by reflexivity.
  split; [exact H | exact (X10_status_spaced sample_ticks H)].
Defined.

Lemma X11_witness :
  (2 <= 30)%nat /\
  (forall j, (j < 2)%nat -> nth j [false; false; true; true] false = false) /\
  (2%nat = 30%nat \/ nth 2 [false; false; true; true] false = true) /\
  setupWiFi [false; false; true; true] =
    (List.concat (List.repeat [WDelay 500; WToggleLed] 2)
     ++ [WLed (if nth 3 [false; false; true; true] false then HIGH else LOW)])%list.
Proof.
  assert (Hi : (2 <= 30)%nat) by lia.
  assert (Hf : forall j, (j < 2)%nat -> nth j [false; false; true; true] false = false)
    by (intros j Hj; destruct j as [|[|j]]; [reflexivity | reflexivity | lia]).
  assert (Hs : 2%nat = 30%nat \/ nth 2 [false; false; true; true] false = true)
    by (right; reflexivity).
  split; [exact Hi | split; [exact Hf | split; [exact Hs |]]].
  exact (X11_setupWiFi_shape [false; false; true; true] 2 Hi Hf Hs).
Defined.

Definition sample_wakes : list node_event :=
  List.repeat (Wake ESP_SLEEP_WAKEUP_TIMER (inject_Z 4) 0 ESP_OK ESP_OK) 11.

Lemma X12_witness :
  0 <= wakeCount rtc_power_on /\
  wakeCount rtc_power_on + Z.of_nat (List.length sample_wakes) <= two32 /\
  forallb wake_ok sample_wakes = true /\
  nth_error sample_wakes 10 = Some (Wake ESP_SLEEP_WAKEUP_TIMER (inject_Z 4) 0 ESP_OK ESP_OK) /\
  nth 10 (snd (run_node rtc_power_on sample_wakes)) [] =
    (if is_ext0 ESP_SLEEP_WAKEUP_TIMER then [1]
     else if (wakeCount rtc_power_on + Z.of_nat 10) mod BATTERY_CHECK_INTERVAL =? 0 then
       (if Qltb (inject_Z 4) LOW_BATTERY_THRESHOLD then [2] else [0])
     else []).
Proof.
  assert (Hw : 0 <= wakeCount rtc_power_on) by (simpl; lia).
  assert (Hn : wakeCount rtc_power_on + Z.of_nat (List.length sample_wakes) <= two32)
    by (unfold two32; simpl; lia).
  assert (Hp : forallb wake_ok sample_wakes = true) by reflexivity.
  assert (Hk : nth_error sample_wakes 10
               = Some (Wake ESP_SLEEP_WAKEUP_TIMER (inject_Z 4) 0 ESP_OK ESP_OK))
    by reflexivity.
  split; [exact Hw | split; [exact Hn | split; [exact Hp | split; [exact Hk |]]]].
  exact (X12_wake_schedule rtc_power_on sample_wakes Hw Hn Hp 10 _ _ _ Hk).
Defined.
